(** * GDPR obfuscator

    A shallow embedding of [src/obfuscator.py], [src/utils.py] and
    [src/main.py], and the properties of the obfuscation pipeline that the
    specification states about them.

    The Python code is glue over pandas, ijson, pyarrow, json and boto3.
    The embedding keeps the control flow of every source function, models
    data frames, the CSV writer, the JSON-lines writer and the object store
    concretely, and takes the parsers and the Parquet codec through the
    [Library] interface.  General theorems hold for every implementation of
    that interface; closed examples run on [reference_library], a small
    implementation for plain CSV and JSON text. *)

From Stdlib Require Import ZArith Ascii String List Lia DecimalString.
From stdpp Require Import base decidable option list strings gmap.

(* ================================================================= *)
(** ** Characters and Python string methods *)

Definition LF : ascii := "010"%char.
Definition CR : ascii := "013"%char.
Definition TAB : ascii := "009"%char.
Definition DQ : ascii := "034"%char.
Definition SQ : ascii := "039"%char.
Definition BACKSLASH : ascii := "092"%char.

Definition nl : string := String LF "".

(** [py] writes a text that contains double quotes with apostrophes in
    their place: [py "{'a':1}"] is the seven characters of the JSON object
    with key [a]. *)
Fixpoint py (s : string) : string :=
  match s with
  | EmptyString => EmptyString
  | String c s' => String (if Ascii.eqb c SQ then DQ else c) (py s')
  end.

Definition chars (s : string) : list ascii := list_ascii_of_string s.

(** [''.join(parts)] *)
Definition join_all (parts : list string) : string := foldr String.append EmptyString parts.

Definition is_upper (c : ascii) : bool :=
  let n := nat_of_ascii c in (65 <=? n)%nat && (n <=? 90)%nat.

Definition is_digit (c : ascii) : bool :=
  let n := nat_of_ascii c in (48 <=? n)%nat && (n <=? 57)%nat.

(** [str.lower()] on ASCII letters; other bytes are left as they are. *)
Fixpoint str_lower (s : string) : string :=
  match s with
  | EmptyString => EmptyString
  | String c s' =>
      String (if is_upper c then ascii_of_nat (nat_of_ascii c + 32) else c)
             (str_lower s')
  end.

(** [s.replace(old, new)] for a non-empty [old]: every non-overlapping
    occurrence, scanning from the left.  [skip] counts the characters of a
    matched occurrence that are still to be dropped. *)
Fixpoint replace_from (old new : string) (skip : nat) (s : string) : string :=
  match s with
  | EmptyString => EmptyString
  | String c s' =>
      match skip with
      | S k => replace_from old new k s'
      | O =>
          if String.prefix old s
          then new +:+ replace_from old new (String.length old - 1) s'
          else String c (replace_from old new 0 s')
      end
  end.

Definition str_replace (old new s : string) : string := replace_from old new 0 s.

(** [sub in s] for strings. *)
Fixpoint str_contains (sub s : string) : bool :=
  String.prefix sub s ||
  match s with
  | EmptyString => false
  | String _ s' => str_contains sub s'
  end.

(** [s.split(sep)[-1]] for a one-character separator. *)
Fixpoint last_segment (sep : ascii) (s acc : string) : string :=
  match s with
  | EmptyString => acc
  | String c s' =>
      if Ascii.eqb c sep then last_segment sep s' EmptyString
      else last_segment sep s' (acc +:+ String c EmptyString)
  end.

(** [s.split(sep, 1)] for a one-character separator: [None] when [sep] does
    not occur (the list then has one element). *)
Fixpoint split_once (sep : ascii) (s : string) : option (string * string) :=
  match s with
  | EmptyString => None
  | String c s' =>
      if Ascii.eqb c sep then Some (EmptyString, s')
      else match split_once sep s' with
           | Some (a, b) => Some (String c a, b)
           | None => None
           end
  end.

Definition hex_digit (n : nat) : ascii :=
  nth n (chars "0123456789abcdef") "0"%char.

(** [repr(s)] of a [str]: the quote is the double quote exactly when [s]
    has an apostrophe and no double quote; backslash, the chosen quote and
    the ASCII control characters are escaped.  Bytes above 127 are kept. *)
Definition repr_quote (s : string) : ascii :=
  if existsb (Ascii.eqb SQ) (chars s) && negb (existsb (Ascii.eqb DQ) (chars s))
  then DQ else SQ.

Definition repr_char (quote c : ascii) : string :=
  let n := nat_of_ascii c in
  if Ascii.eqb c BACKSLASH then String BACKSLASH (String BACKSLASH "")
  else if Ascii.eqb c quote then String BACKSLASH (String quote "")
  else if Ascii.eqb c LF then String BACKSLASH "n"
  else if Ascii.eqb c CR then String BACKSLASH "r"
  else if Ascii.eqb c TAB then String BACKSLASH "t"
  else if (n <? 32)%nat || (n =? 127)%nat
       then String BACKSLASH
              (String "x" (String (hex_digit (n / 16)) (String (hex_digit (n mod 16)) "")))
  else String c "".

Definition py_repr (s : string) : string :=
  let q := repr_quote s in
  String q (join_all (map (repr_char q) (chars s)) +:+ String q "").

Definition str_of_Z (z : Z) : string := NilZero.string_of_int (Z.to_int z).

(* ================================================================= *)
(** ** Exceptions *)

(** The classes the pipeline branches on, and [Subclass] for the classes of
    the libraries ([EmptyDataError] and [ParserError] under [ValueError],
    ijson's [JSONError] under [Exception], ...). *)
Inductive exn_class : Type :=
  | Exception
  | KeyError
  | ValueError
  | TypeError
  | AttributeError
  | Subclass (name : string) (parent : exn_class).

#[global] Instance exn_class_eq_dec : EqDecision exn_class.
Proof. solve_decision. Defined.

(** [issubclass c k]: what [except k] matches. *)
Fixpoint issubclass (c k : exn_class) : bool :=
  bool_decide (c = k) ||
  match c with
  | Subclass _ parent => issubclass parent k
  | _ => bool_decide (k = Exception)
  end.

(** An exception object: its class and its single argument. *)
Record exn : Type := Exn { exn_type : exn_class; exn_arg : string }.

(** [str(e)]: a [KeyError] prints the [repr] of its argument. *)
Definition py_str (e : exn) : string :=
  if issubclass (exn_type e) KeyError then py_repr (exn_arg e) else exn_arg e.

Inductive result (A : Type) : Type :=
  | Ok (a : A)
  | Raise (e : exn).
Arguments Ok {A} a.
Arguments Raise {A} e.

(** How a call that mutates an object ends: the object's state after the
    call is returned next to it. *)
Inductive completion : Type :=
  | Done
  | Raised (e : exn).

(** A lazily produced sequence: the items that come out, then either the
    end of the sequence or the exception that iteration raises. *)
Definition stream (A : Type) : Type := (list A * option exn)%type.

(* ================================================================= *)
(** ** Data frames *)

(** A cell.  A float is carried by its IEEE-754 bit pattern; only the
    library prints it. *)
Inductive scalar : Type :=
  | SInt (z : Z)
  | SFloat (bits : Z)
  | SBool (b : bool)
  | SStr (s : string)
  | SNaN.

(** A [pandas.DataFrame] with the default index: the length of the index
    and the columns in order, each a label and its cells. *)
Record DataFrame : Type := Frame {
  nrows : nat;
  cols : list (string * list scalar)
}.

(** [df.columns] *)
Definition columns (df : DataFrame) : list string := map fst (cols df).

(** Every column is as long as the index. *)
Definition rectangular (df : DataFrame) : Prop :=
  Forall (λ c : string * list scalar, length c.2 = nrows df) (cols df).

(** [df[field] = value] with a scalar [value]: every column labelled
    [field] is overwritten with [value] on each row; a new column is
    appended when there is none. *)
Definition setitem (df : DataFrame) (field : string) (value : scalar) : DataFrame :=
  let column := replicate (nrows df) value in
  if bool_decide (field ∈ columns df) then
    {| nrows := nrows df;
       cols := map (λ c : string * list scalar,
                      if bool_decide (c.1 = field) then (c.1, column) else c)
                   (cols df) |}
  else {| nrows := nrows df; cols := cols df ++ [(field, column)] |}.

(** The cells of row [i], in column order. *)
Definition row_at (df : DataFrame) (i : nat) : list scalar :=
  map (λ c : string * list scalar, default SNaN (c.2 !! i)) (cols df).

Definition rows (df : DataFrame) : list (list scalar) :=
  map (row_at df) (seq 0 (nrows df)).

(** The mask value. *)
Definition MASK : scalar := SStr "***".

(* ================================================================= *)
(** ** JSON values and the library interface *)

(** A decoded JSON value; an object keeps its members in document order.
    A number that is not an integer is carried by its text. *)
#[warnings="-register-all"] Inductive json : Type :=
  | JNull
  | JBool (b : bool)
  | JInt (z : Z)
  | JNum (text : string)
  | JStr (s : string)
  | JArr (items : list json)
  | JObj (members : list (string * json)).

(** The calls into pandas, ijson, pyarrow and json whose results the
    pipeline consumes.  A call that builds an iterator returns a [stream]:
    the exception of a malformed input is raised while iterating, after
    the items before it have been handed out. *)
Class Library : Type := {
  (** [repr] of a float, as [to_csv] writes it *)
  float_repr : Z → string;
  (** a float as [to_json] writes it *)
  float_json : Z → string;
  (** [pd.read_csv(io.StringIO(content), chunksize=chunk_size)] *)
  read_csv_chunks : string → Z → result (stream DataFrame);
  (** [pd.read_csv(buffer)] *)
  read_csv : string → result DataFrame;
  (** [ijson.items(content.encode('utf8'), 'item')] *)
  ijson_items : string → stream json;
  (** [pd.DataFrame(chunk)] on a list of decoded items *)
  pd_DataFrame : list json → result DataFrame;
  (** [pq.ParquetFile(content).iter_batches(batch_size=chunk_size)], each
      batch through [to_pandas()] *)
  parquet_iter_batches : string → Z → result (stream DataFrame);
  (** [df.to_parquet(output, index=False, engine='pyarrow')] *)
  to_parquet : DataFrame → result string;
  (** [pq.read_table(io.BytesIO(content)).to_pandas()] *)
  pq_read_table : string → result DataFrame;
  (** [json.loads(text)] *)
  json_loads : string → result json;
  (** [content.decode('utf8')] *)
  decode_utf8 : string → result string
}.

(* ================================================================= *)
(** ** The CSV and JSON-lines writers of pandas *)

Section Writers.
Context `{Library}.

(** [csv.QUOTE_MINIMAL]: a field is quoted when it holds the delimiter,
    the quote or a line break; quotes inside are doubled. *)
Definition csv_needs_quotes (s : string) : bool :=
  existsb (λ c, Ascii.eqb c ","%char || Ascii.eqb c DQ || Ascii.eqb c LF || Ascii.eqb c CR)
          (chars s).

Definition csv_field (s : string) : string :=
  if csv_needs_quotes s
  then String DQ (str_replace (String DQ "") (String DQ (String DQ "")) s +:+ String DQ "")
  else s.

(** One record of the writer, line terminator included.  A record that is
    a single empty field is written as a pair of quotes. *)
Definition csv_line (fields : list string) : string :=
  match fields with
  | [EmptyString] => String DQ (String DQ nl)
  | _ => String.concat "," (map csv_field fields) +:+ nl
  end.

Definition csv_cell (v : scalar) : string :=
  match v with
  | SInt z => str_of_Z z
  | SFloat bits => float_repr bits
  | SBool b => if b then "True" else "False"
  | SStr s => s
  | SNaN => ""
  end.

Definition csv_header (df : DataFrame) : string := csv_line (columns df).

Definition csv_body (df : DataFrame) : string :=
  join_all (map (λ r, csv_line (map csv_cell r)) (rows df)).

(** [df.to_csv(index=False, header=header)] *)
Definition to_csv (df : DataFrame) (header : bool) : string :=
  (if header then csv_header df else "") +:+ csv_body df.

(** A string literal of the JSON writer (ASCII rules: quote, backslash and
    slash are escaped, control characters are written as escapes). *)
Definition json_escape_char (c : ascii) : string :=
  let n := nat_of_ascii c in
  if Ascii.eqb c DQ then String BACKSLASH (String DQ "")
  else if Ascii.eqb c BACKSLASH then String BACKSLASH (String BACKSLASH "")
  else if Ascii.eqb c "/"%char then String BACKSLASH "/"
  else if Ascii.eqb c "008"%char then String BACKSLASH "b"
  else if Ascii.eqb c "012"%char then String BACKSLASH "f"
  else if Ascii.eqb c LF then String BACKSLASH "n"
  else if Ascii.eqb c CR then String BACKSLASH "r"
  else if Ascii.eqb c TAB then String BACKSLASH "t"
  else if (n <? 32)%nat
       then String BACKSLASH
              ("u00" +:+ String (hex_digit (n / 16)) (String (hex_digit (n mod 16)) ""))
  else String c "".

Definition json_string (s : string) : string :=
  String DQ (join_all (map json_escape_char (chars s)) +:+ String DQ "").

Definition json_value (v : scalar) : string :=
  match v with
  | SInt z => str_of_Z z
  | SFloat bits => float_json bits
  | SBool b => if b then "true" else "false"
  | SStr s => json_string s
  | SNaN => "null"
  end.

(** One record: the members in column order. *)
Definition json_object (names : list string) (row : list scalar) : string :=
  "{" +:+ String.concat ","
            (zip_with (λ n v, json_string n +:+ ":" +:+ json_value v) names row)
      +:+ "}".

Definition json_lines (df : DataFrame) : list string :=
  map (json_object (columns df)) (rows df).

(** [df.to_json(orient='records', lines=True)]: the objects of the rows
    separated by line feeds, and a line feed at the end; so one object per
    row, each followed by a line feed, and a single line feed for a frame
    without rows.  Duplicate column labels are refused. *)
Definition to_json (df : DataFrame) : result string :=
  if bool_decide (NoDup (columns df))
  then Ok (match json_lines df with
           | [] => nl
           | lines => join_all (map (λ l, l +:+ nl) lines)
           end)
  else Raise (Exn ValueError "DataFrame columns must be unique for orient='records'.").

End Writers.

(* ================================================================= *)
(** ** [src/obfuscator.py] *)

Section Obfuscator.
Context `{Library}.

(** [obfuscate_fields_in_df(df, fields_list)].  The frame is mutated in
    place and returned: the result is the state of the caller's frame after
    the call and how the call ended. *)
Fixpoint obfuscate_fields_in_df (df : DataFrame) (fields_list : list string)
  : DataFrame * completion :=
  match fields_list with
  | [] => (df, Done)
  | field :: fields_list' =>
      if bool_decide (field ∈ columns df)
      then obfuscate_fields_in_df (setitem df field MASK) fields_list'
      else (df, Raised (Exn KeyError ("Field '" +:+ field +:+ "' not" +:+
                                      "found in the data.")))
  end.

(** [process_df_chunk(chunk, fields_list, output, is_first_chunk)]: the
    state of [output] after the call and how the call ended.  [output] is
    the content of a buffer whose position is at its end, as it is for the
    buffer that [convert_str_file_content_to_obfuscated_csv] creates and
    hands down: what [to_csv] writes is added behind it. *)
Definition process_df_chunk (chunk : DataFrame) (fields_list : list string)
    (output : string) (is_first_chunk : bool) : string * completion :=
  match obfuscate_fields_in_df chunk fields_list with
  | (obfuscated_df, Done) => (output +:+ to_csv obfuscated_df is_first_chunk, Done)
  | (_, Raised e) => (output, Raised e)
  end.

(** The loop [for chunk in chunk_iter: process_df_chunk(...);
    is_first_chunk = False] of the CSV branch and of
    [process_parquet_chunk]. *)
Fixpoint for_each_chunk (chunks : list DataFrame) (stop : option exn)
    (fields_list : list string) (output : string) (is_first_chunk : bool)
  : string * completion :=
  match chunks with
  | [] => (output, match stop with Some e => Raised e | None => Done end)
  | chunk :: chunks' =>
      match process_df_chunk chunk fields_list output is_first_chunk with
      | (output', Done) => for_each_chunk chunks' stop fields_list output' false
      | (output', Raised e) => (output', Raised e)
      end
  end.

(** The body of [for obj in json_objects] in [process_json_chunk], with the
    loop state [chunk], [is_first_chunk] and [output]. *)
Fixpoint json_loop (objs : list json) (fields_list : list string) (chunk_size : Z)
    (chunk : list json) (is_first_chunk : bool) (output : string)
  : (list json * bool * string) * completion :=
  match objs with
  | [] => ((chunk, is_first_chunk, output), Done)
  | obj :: objs' =>
      let chunk := chunk ++ [obj] in
      if (Z.of_nat (length chunk) =? chunk_size)%Z then
        match pd_DataFrame chunk with
        | Raise e => ((chunk, is_first_chunk, output), Raised e)
        | Ok step_df =>
            match process_df_chunk step_df fields_list output is_first_chunk with
            | (output', Done) => json_loop objs' fields_list chunk_size [] false output'
            | (output', Raised e) => ((chunk, is_first_chunk, output'), Raised e)
            end
        end
      else json_loop objs' fields_list chunk_size chunk is_first_chunk output
  end.

(** [process_json_chunk(file_content, fields_list, output, chunk_size)] *)
Definition process_json_chunk (file_content : string) (fields_list : list string)
    (output : string) (chunk_size : Z) : string * completion :=
  let '(json_objects, stop) := ijson_items file_content in
  match json_loop json_objects fields_list chunk_size [] true output with
  | ((_, _, output'), Raised e) => (output', Raised e)
  | ((chunk, is_first_chunk, output'), Done) =>
      match stop with
      | Some e => (output', Raised e)
      | None =>
          match chunk with
          | [] => (output', Done)
          | _ :: _ =>
              match pd_DataFrame chunk with
              | Raise e => (output', Raised e)
              | Ok step_df => process_df_chunk step_df fields_list output' is_first_chunk
              end
          end
      end
  end.

(** [process_parquet_chunk(file_content, fields_list, output, chunk_size)] *)
Definition process_parquet_chunk (file_content : string) (fields_list : list string)
    (output : string) (chunk_size : Z) : string * completion :=
  match parquet_iter_batches file_content chunk_size with
  | Raise e => (output, Raised e)
  | Ok (batches, stop) => for_each_chunk batches stop fields_list output true
  end.

Definition supported_formats : list string := ["csv"; "json"; "parquet"].

Definition not_supported (format : string) : string :=
  "Sorry that " +:+ format +:+ " is not supported. " +:+
  "This tool currently only support csv/json/parquet".

(** The buffer a function built and returns, or the exception it lets go. *)
Definition returned (r : string * completion) : result string :=
  match r with
  | (output, Done) => Ok output
  | (_, Raised e) => Raise e
  end.

(** [convert_str_file_content_to_obfuscated_csv(file_content, fields_list,
    file_type, chunk_size)] *)
Definition convert_str_file_content_to_obfuscated_csv (file_content : string)
    (fields_list : list string) (file_type : string) (chunk_size : Z)
  : result string :=
  if negb (bool_decide (file_type ∈ supported_formats))
  then Raise (Exn ValueError (not_supported file_type))
  else
    let output := "" in
    if bool_decide (file_type = "csv") then
      match read_csv_chunks file_content chunk_size with
      | Raise e => Raise e
      | Ok (chunk_iter, stop) =>
          returned (for_each_chunk chunk_iter stop fields_list output true)
      end
    else if bool_decide (file_type = "json") then
      returned (process_json_chunk file_content fields_list output chunk_size)
    else
      returned (process_parquet_chunk file_content fields_list output chunk_size).

(** [convert_csv_to_output_format(csv_bytes, output_format)] *)
Definition convert_csv_to_output_format (csv_bytes : string) (output_format : string)
  : result string :=
  match read_csv csv_bytes with
  | Raise e => Raise e
  | Ok df =>
      if bool_decide (output_format = "json") then to_json df
      else if bool_decide (output_format = "parquet") then to_parquet df
      else Raise (Exn ValueError ("Unsupported format." +:+
                                  " Only 'json' and 'parquet' are allowed."))
  end.

(** The [try] block of [obfuscate_file]. *)
Definition obfuscate_file_body (file_content : string) (fields_list : list string)
    (file_type : string) (output_format : option string) (chunk_size : Z)
  : result string :=
  let file_type := str_lower file_type in
  match convert_str_file_content_to_obfuscated_csv
          file_content fields_list file_type chunk_size with
  | Raise e => Raise e
  | Ok output =>
      match output_format with
      | Some format =>
          if negb (bool_decide (format ∈ supported_formats))
          then Raise (Exn ValueError (not_supported format))
          else if negb (bool_decide (format = "csv"))
               then convert_csv_to_output_format output format
               else Ok output
      | None =>
          if negb (bool_decide (file_type = "csv"))
          then convert_csv_to_output_format output file_type
          else Ok output
      end
  end.

(** The [except] clauses of [obfuscate_file], tried in order. *)
Definition obfuscate_file_except (e : exn) : exn :=
  if issubclass (exn_type e) KeyError
  then Exn KeyError ("Error processing data chunk: " +:+ py_str e)
  else if issubclass (exn_type e) ValueError
  then Exn ValueError ("Error reading the file: " +:+ py_str e)
  else Exn Exception ("Unexpected error in obfuscating file: " +:+ py_str e).

(** [obfuscate_file(file_content, fields_list, file_type, output_format,
    chunk_size)] *)
Definition obfuscate_file (file_content : string) (fields_list : list string)
    (file_type : string) (output_format : option string) (chunk_size : Z)
  : result string :=
  match obfuscate_file_body file_content fields_list file_type output_format chunk_size with
  | Ok output => Ok output
  | Raise e => Raise (obfuscate_file_except e)
  end.

End Obfuscator.

(* ================================================================= *)
(** ** [src/utils.py] *)

(** The object store: the body stored under each bucket and key. *)
Abbreviation s3_store := (gmap (string * string) string).

Definition NoSuchKey : exn :=
  Exn (Subclass "ClientError" Exception)
      ("An error occurred (NoSuchKey) when calling the GetObject operation: " +:+
       "The specified key does not exist.").

(** [s3_client.get_object(Bucket=s3_bucket, Key=file_key)['Body'].read()] *)
Definition get_object (s3 : s3_store) (s3_bucket file_key : string) : result string :=
  match s3 !! (s3_bucket, file_key) with
  | Some content => Ok content
  | None => Raise NoSuchKey
  end.

(** [s3_client.put_object(Bucket=s3_bucket, Key=file_key, Body=body)]; the
    store takes every object. *)
Definition put_object (s3 : s3_store) (s3_bucket file_key body : string) : s3_store :=
  <[(s3_bucket, file_key) := body]> s3.

(** [file_key.split('.')[-1].lower()] *)
Definition file_extension_of (file_key : string) : string :=
  str_lower (last_segment "."%char file_key EmptyString).

(** [type(v).__name__] of a decoded JSON value. *)
Definition py_type_name (v : json) : string :=
  match v with
  | JNull => "NoneType"
  | JBool _ => "bool"
  | JInt _ => "int"
  | JNum _ => "float"
  | JStr _ => "str"
  | JArr _ => "list"
  | JObj _ => "dict"
  end.

(** [d[key]] on a dict built from the members in document order: the last
    member with that key. *)
Definition dict_get (key : string) (members : list (string * json)) : option json :=
  snd <$> last (filter (λ m : string * json, m.1 = key) members).

Section Utils.
Context `{Library}.

(** [read_s3_file(s3_bucket, file_key)] *)
Definition read_s3_file (s3 : s3_store) (s3_bucket file_key : string)
  : result (string * string) :=
  match get_object s3 s3_bucket file_key with
  | Raise e => Raise e
  | Ok content =>
      let file_extension := file_extension_of file_key in
      let body : result string :=
        if bool_decide (file_extension ∈ ["csv"; "json"]) then decode_utf8 content
        else if bool_decide (file_extension = "parquet") then
          match pq_read_table content with
          | Raise e => Raise e
          | Ok table => Ok (to_csv table true)
          end
        else Raise (Exn ValueError ("Unsupported file type: " +:+ file_extension))
      in
      match body with
      | Ok content_str => Ok (content_str, file_extension)
      | Raise e =>
          if issubclass (exn_type e) ValueError then Raise e
          else Raise (Exn Exception ("Unexpected Error: " +:+ py_str e))
      end
  end.

(** [write_s3_file(s3_bucket, file_key, file_content)]: the store after the
    call and the confirmation or the exception. *)
Definition write_s3_file (s3 : s3_store) (s3_bucket file_key file_content : string)
  : s3_store * result string :=
  let file_extension := file_extension_of file_key in
  let body : result string :=
    if bool_decide (file_extension ∈ ["csv"; "json"]) then decode_utf8 file_content
    else if bool_decide (file_extension = "parquet") then Ok file_content
    else Raise (Exn ValueError ("Unsupported file type: " +:+ file_extension))
  in
  match body with
  | Ok body_content =>
      (put_object s3 s3_bucket file_key body_content,
       Ok (file_key +:+ " has been successfully " +:+
           "uploaded to s3 bucket " +:+ s3_bucket))
  | Raise e =>
      (s3, if issubclass (exn_type e) ValueError
           then Raise (Exn ValueError ("ValueError: " +:+ py_str e))
           else Raise (Exn Exception ("Unexpected Error: " +:+ py_str e)))
  end.

(** [key in json_dict] for a decoded value: membership in a dict's keys, in
    a list's items, or as a substring; a [TypeError] for the rest. *)
Definition py_in (key : string) (json_dict : json) : result bool :=
  match json_dict with
  | JObj members => Ok (bool_decide (key ∈ map fst members))
  | JArr items =>
      Ok (existsb (λ v, match v with JStr s => bool_decide (s = key) | _ => false end) items)
  | JStr s => Ok (str_contains key s)
  | v => Raise (Exn TypeError ("argument of type '" +:+ py_type_name v +:+
                               "' is not iterable"))
  end.

(** [json_dict[key]] once [key in json_dict] holds. *)
Definition py_getitem (key : string) (json_dict : json) : result json :=
  match json_dict with
  | JObj members =>
      match dict_get key members with
      | Some v => Ok v
      | None => Raise (Exn KeyError key)
      end
  | v => Raise (Exn TypeError (py_type_name v +:+ " indices must be integers"))
  end.

(** The [try] block of [json_input_handler]. *)
Definition json_input_handler_body (json_input : string)
  : result (string * string * json) :=
  match json_loads json_input with
  | Raise e => Raise e
  | Ok json_dict =>
      match py_in "file_to_obfuscate" json_dict with
      | Raise e => Raise e
      | Ok has_file =>
          match (if has_file then py_in "pii_fields" json_dict else Ok false) with
          | Raise e => Raise e
          | Ok false => Raise (Exn ValueError "Missing required keys in JSON input")
          | Ok true =>
              match py_getitem "file_to_obfuscate" json_dict with
              | Raise e => Raise e
              | Ok (JStr s3_url) =>
                  match split_once "/"%char (str_replace "s3://" "" s3_url) with
                  | None =>
                      Raise (Exn ValueError
                               "not enough values to unpack (expected 2, got 1)")
                  | Some (s3_bucket, file_key) =>
                      match py_getitem "pii_fields" json_dict with
                      | Raise e => Raise e
                      | Ok fields_list => Ok (s3_bucket, file_key, fields_list)
                      end
                  end
              | Ok v =>
                  Raise (Exn AttributeError
                           ("'" +:+ py_type_name v +:+
                            "' object has no attribute 'replace'"))
              end
          end
      end
  end.

(** The [except] clauses of [json_input_handler], tried in order
    ([JSONDecodeError] is a [ValueError]). *)
Definition json_input_handler_except (e : exn) : exn :=
  if issubclass (exn_type e) TypeError
  then Exn TypeError "The input is not a JSON string"
  else if issubclass (exn_type e) ValueError
  then Exn ValueError "Invalid JSON input"
  else Exn Exception ("Unexpected error: " +:+ py_str e).

(** [json_input_handler(json_input)] *)
Definition json_input_handler (json_input : string) : result (string * string * json) :=
  match json_input_handler_body json_input with
  | Ok r => Ok r
  | Raise e => Raise (json_input_handler_except e)
  end.

End Utils.

(* ================================================================= *)
(** ** [src/main.py] *)

(** What [handle_file_obfuscation] returns: the confirmation text, or the
    buffer when the result is not saved. *)
Inductive handled : Type :=
  | Saved (message : string)
  | Buffer (content : string).

(** The field names of a [pii_fields] value that is a list of strings, the
    type [fields_list: list[str]] of the pipeline. *)
Definition field_names (fields_list : json) : option (list string) :=
  match fields_list with
  | JArr items =>
      mapM (λ v, match v with JStr s => Some s | _ => None end) items
  | _ => None
  end.

Section Main.
Context `{Library}.

(** [except Exception as e: raise Exception(str(e))] *)
Definition reraise {A : Type} (e : exn) : result A := Raise (Exn Exception (py_str e)).

(** [handle_file_obfuscation(json_string, if_output_different_format,
    output_format, chunk_size, if_save_to_s3)] on a store: the store after
    the call and the result.  [None] only for a descriptor whose
    [pii_fields] is not a list of strings, which the embedding leaves out. *)
Definition handle_file_obfuscation (s3 : s3_store) (json_string : string)
    (if_output_different_format : bool) (output_format : option string)
    (chunk_size : Z) (if_save_to_s3 : bool) : option (s3_store * result handled) :=
  match json_input_handler json_string with
  | Raise e => Some (s3, reraise e)
  | Ok (s3_bucket, file_key, pii_fields) =>
      fields_list ← field_names pii_fields;
      match read_s3_file s3 s3_bucket file_key with
      | Raise e => Some (s3, reraise e)
      | Ok (content_str, file_extension) =>
          match obfuscate_file content_str fields_list file_extension
                  (if if_output_different_format then output_format else None)
                  chunk_size with
          | Raise e => Some (s3, reraise e)
          | Ok content_BytesIO =>
              if if_save_to_s3 then
                let output_file_key := str_replace "new_data" "processed_data" file_key in
                match write_s3_file s3 s3_bucket output_file_key content_BytesIO with
                | (s3', Raise e) => Some (s3', reraise e)
                | (s3', Ok _) =>
                    Some (s3', Ok (Saved ("Obfuscated file saved to s3://" +:+
                                          s3_bucket +:+ "/" +:+ output_file_key)))
                end
              else Some (s3, Ok (Buffer content_BytesIO))
          end
      end
  end.

End Main.

(* ================================================================= *)
(** ** A reference library for plain CSV and JSON text

    [reference_library] implements [Library] for the inputs the closed
    examples run on: JSON documents of integers, strings, booleans, nulls,
    arrays and objects, and comma-separated text without quoting whose
    cells are integer literals, empty, or text.  It answers with
    [NotModelled] where pandas would infer floats or booleans, and for
    Parquet, instead of guessing. *)

Module Reference.

Definition NotModelled (what : string) : exn :=
  Exn (Subclass "NotModelled" Exception) what.

Definition JSONError : exn_class := Subclass "JSONError" Exception.
Definition EmptyDataError : exn_class := Subclass "EmptyDataError" ValueError.

(** *** JSON documents *)

Definition is_ws (c : ascii) : bool :=
  Ascii.eqb c " "%char || Ascii.eqb c LF || Ascii.eqb c CR || Ascii.eqb c TAB.

Fixpoint skip_ws (s : list ascii) : list ascii :=
  match s with
  | c :: s' => if is_ws c then skip_ws s' else s
  | [] => []
  end.

(** [s] without the prefix [p], when it starts with [p]. *)
Fixpoint strip_prefix (p s : list ascii) : option (list ascii) :=
  match p, s with
  | [], _ => Some s
  | a :: p', b :: s' => if Ascii.eqb a b then strip_prefix p' s' else None
  | _ :: _, [] => None
  end.

Definition unescape (c : ascii) : option ascii :=
  if Ascii.eqb c DQ then Some DQ
  else if Ascii.eqb c BACKSLASH then Some BACKSLASH
  else if Ascii.eqb c "/"%char then Some "/"%char
  else if Ascii.eqb c "n"%char then Some LF
  else if Ascii.eqb c "r"%char then Some CR
  else if Ascii.eqb c "t"%char then Some TAB
  else if Ascii.eqb c "b"%char then Some "008"%char
  else if Ascii.eqb c "f"%char then Some "012"%char
  else None.

Definition hex_value (c : ascii) : option N :=
  let n := N_of_ascii c in
  if is_digit c then Some (n - 48)%N
  else if ((97 <=? n) && (n <=? 102))%N then Some (n - 87)%N
  else if ((65 <=? n) && (n <=? 70))%N then Some (n - 55)%N
  else None.

(** The code unit of the four hexadecimal digits of a [\u] escape. *)
Definition hex4 (h1 h2 h3 h4 : ascii) : option N :=
  a ← hex_value h1; b ← hex_value h2; c ← hex_value h3; d ← hex_value h4;
  Some (((a * 16 + b) * 16 + c) * 16 + d)%N.

Definition is_high_surrogate (u : N) : bool := ((55296 <=? u) && (u <=? 56319))%N.
Definition is_low_surrogate (u : N) : bool := ((56320 <=? u) && (u <=? 57343))%N.

(** The UTF-8 bytes of a code point. *)
Definition utf8_encode (cp : N) : string :=
  let byte (n : N) := ascii_of_N n in
  (if cp <? 128 then String (byte cp) ""
   else if cp <? 2048 then
     String (byte (192 + cp / 64)) (String (byte (128 + cp mod 64)) "")
   else if cp <? 65536 then
     String (byte (224 + cp / 4096))
       (String (byte (128 + (cp / 64) mod 64)) (String (byte (128 + cp mod 64)) ""))
   else
     String (byte (240 + cp / 262144))
       (String (byte (128 + (cp / 4096) mod 64))
          (String (byte (128 + (cp / 64) mod 64))
             (String (byte (128 + cp mod 64)) ""))))%N.

(** The characters of a string literal after its opening quote, and what
    follows the closing quote.  A [\u] escape gives the UTF-8 bytes of its
    code point, a high and a low surrogate together those of the one code
    point they stand for; a surrogate on its own gives the three bytes of
    its code unit. *)
Fixpoint parse_string_body (s : list ascii) : option (string * list ascii) :=
  match s with
  | [] => None
  | c :: s' =>
      if Ascii.eqb c DQ then Some (EmptyString, s')
      else if Ascii.eqb c BACKSLASH then
        match s' with
        | e :: s'' =>
            if Ascii.eqb e "u"%char then
              match s'' with
              | h1 :: h2 :: h3 :: h4 :: s3 =>
                  unit ← hex4 h1 h2 h3 h4;
                  let single :=
                    '(body, rest) ← parse_string_body s3;
                    Some (utf8_encode unit +:+ body, rest) in
                  match s3 with
                  | b :: u :: l1 :: l2 :: l3 :: l4 :: s4 =>
                      match hex4 l1 l2 l3 l4 with
                      | Some low =>
                          if is_high_surrogate unit && Ascii.eqb b BACKSLASH
                             && Ascii.eqb u "u"%char && is_low_surrogate low
                          then
                            '(body, rest) ← parse_string_body s4;
                            Some (utf8_encode (65536 + (unit - 55296) * 1024
                                               + (low - 56320))%N +:+ body, rest)
                          else single
                      | None => single
                      end
                  | _ => single
                  end
              | _ => None
              end
            else
              ch ← unescape e;
              '(body, rest) ← parse_string_body s'';
              Some (String ch body, rest)
        | [] => None
        end
      else if (nat_of_ascii c <? 32)%nat then None
      else '(body, rest) ← parse_string_body s'; Some (String c body, rest)
  end.

Fixpoint take_while (p : ascii → bool) (s : list ascii) : list ascii * list ascii :=
  match s with
  | c :: s' => if p c then let '(a, b) := take_while p s' in (c :: a, b) else ([], s)
  | [] => ([], [])
  end.

Definition digits_value (ds : list ascii) : Z :=
  fold_left (λ acc c, (10 * acc + Z.of_nat (nat_of_ascii c - 48))%Z) ds 0%Z.

Definition is_number_char (c : ascii) : bool :=
  is_digit c || Ascii.eqb c "."%char || Ascii.eqb c "e"%char || Ascii.eqb c "E"%char
  || Ascii.eqb c "+"%char || Ascii.eqb c "-"%char.

(** A number: an integer literal gives [JInt], a literal with a fraction or
    an exponent gives [JNum] with its text. *)
Definition parse_number (s : list ascii) : option (json * list ascii) :=
  let '(negative, s1) :=
    match s with
    | c :: s' => if Ascii.eqb c "-"%char then (true, s') else (false, s)
    | [] => (false, s)
    end in
  let '(ds, rest) := take_while is_digit s1 in
  match ds with
  | [] => None
  | d :: ds' =>
      if Ascii.eqb d "0"%char && negb (bool_decide (ds' = [])) then None
      else
        match rest with
        | c :: _ =>
            if Ascii.eqb c "."%char || Ascii.eqb c "e"%char || Ascii.eqb c "E"%char
            then let '(text, rest') := take_while is_number_char s in
                 Some (JNum (string_of_list_ascii text), rest')
            else Some (JInt (if negative then - digits_value ds else digits_value ds)%Z, rest)
        | [] => Some (JInt (if negative then - digits_value ds else digits_value ds)%Z, rest)
        end
  end.

Fixpoint parse_value (fuel : nat) (s : list ascii) {struct fuel}
  : option (json * list ascii) :=
  match fuel with
  | O => None
  | S fuel' =>
      match skip_ws s with
      | [] => None
      | c :: s1 =>
          if Ascii.eqb c "{"%char then
            match skip_ws s1 with
            | c' :: s2 =>
                if Ascii.eqb c' "}"%char then Some (JObj [], s2)
                else '(members, rest) ← parse_members fuel' s1; Some (JObj members, rest)
            | [] => None
            end
          else if Ascii.eqb c "["%char then
            match skip_ws s1 with
            | c' :: s2 =>
                if Ascii.eqb c' "]"%char then Some (JArr [], s2)
                else '(items, rest) ← parse_elements fuel' s1; Some (JArr items, rest)
            | [] => None
            end
          else if Ascii.eqb c DQ then
            '(text, rest) ← parse_string_body s1; Some (JStr text, rest)
          else if Ascii.eqb c "t"%char then
            rest ← strip_prefix (chars "rue") s1; Some (JBool true, rest)
          else if Ascii.eqb c "f"%char then
            rest ← strip_prefix (chars "alse") s1; Some (JBool false, rest)
          else if Ascii.eqb c "n"%char then
            rest ← strip_prefix (chars "ull") s1; Some (JNull, rest)
          else parse_number (c :: s1)
      end
  end
with parse_members (fuel : nat) (s : list ascii) {struct fuel}
  : option (list (string * json) * list ascii) :=
  match fuel with
  | O => None
  | S fuel' =>
      match skip_ws s with
      | c :: s1 =>
          if Ascii.eqb c DQ then
            '(key, s2) ← parse_string_body s1;
            match skip_ws s2 with
            | c2 :: s3 =>
                if Ascii.eqb c2 ":"%char then
                  '(value, s4) ← parse_value fuel' s3;
                  match skip_ws s4 with
                  | c4 :: s5 =>
                      if Ascii.eqb c4 ","%char then
                        '(members, rest) ← parse_members fuel' s5;
                        Some ((key, value) :: members, rest)
                      else if Ascii.eqb c4 "}"%char then Some ([(key, value)], s5)
                      else None
                  | [] => None
                  end
                else None
            | [] => None
            end
          else None
      | [] => None
      end
  end
with parse_elements (fuel : nat) (s : list ascii) {struct fuel}
  : option (list json * list ascii) :=
  match fuel with
  | O => None
  | S fuel' =>
      '(value, s1) ← parse_value fuel' s;
      match skip_ws s1 with
      | c :: s2 =>
          if Ascii.eqb c ","%char then
            '(items, rest) ← parse_elements fuel' s2; Some (value :: items, rest)
          else if Ascii.eqb c "]"%char then Some ([value], s2)
          else None
      | [] => None
      end
  end.

(** A whole document: one value and nothing but white space after it. *)
Definition parse_document (text : string) : option json :=
  '(value, rest) ← parse_value (2 * String.length text + 2) (chars text);
  match skip_ws rest with
  | [] => Some value
  | _ :: _ => None
  end.

Definition ref_json_loads (text : string) : result json :=
  match parse_document text with
  | Some value => Ok value
  | None => Raise (Exn (Subclass "JSONDecodeError" ValueError) "Expecting value")
  end.

Definition parse_error : exn := Exn JSONError "parse error".

(** The elements of an array from the place before an element on, each
    handed out as soon as it is complete; what is wrong behind it is
    reported after it. *)
Fixpoint parse_items (fuel : nat) (s : list ascii) : stream json :=
  match fuel with
  | O => ([], Some parse_error)
  | S fuel' =>
      match parse_value (2 * length s + 2) s with
      | None => ([], Some parse_error)
      | Some (value, s1) =>
          match skip_ws s1 with
          | c :: s2 =>
              if Ascii.eqb c ","%char then
                let '(items, stop) := parse_items fuel' s2 in (value :: items, stop)
              else if Ascii.eqb c "]"%char then
                match skip_ws s2 with
                | [] => ([value], None)
                | _ :: _ => ([value], Some parse_error)
                end
              else ([value], Some parse_error)
          | [] => ([value], Some parse_error)
          end
      end
  end.

(** The items under the prefix ['item']: the elements of a top-level array,
    in order, none for another top-level value.  A malformed document
    raises ijson's [JSONError] after the items before the fault; [parse
    error] stands for the text of the backend's message. *)
Definition ref_ijson_items (text : string) : stream json :=
  match skip_ws (chars text) with
  | [] => ([], Some parse_error)
  | c :: s1 =>
      if Ascii.eqb c "["%char then
        match skip_ws s1 with
        | [] => ([], Some parse_error)
        | c' :: s2 =>
            if Ascii.eqb c' "]"%char then
              match skip_ws s2 with
              | [] => ([], None)
              | _ :: _ => ([], Some parse_error)
              end
            else parse_items (length s1) s1
        end
      else
        match parse_document text with
        | Some _ => ([], None)
        | None => ([], Some parse_error)
        end
  end.

(** *** Frames from decoded records *)

Definition int64_range (z : Z) : bool :=
  ((- 2 ^ 63 <=? z) && (z <? 2 ^ 63))%Z.

Definition scalar_of_json (v : json) : option scalar :=
  match v with
  | JNull => Some SNaN
  | JBool b => Some (SBool b)
  | JInt z => if int64_range z then Some (SInt z) else None
  | JStr s => Some (SStr s)
  | _ => None
  end.

Definition record_of_json (v : json) : option (list (string * scalar)) :=
  match v with
  | JObj members =>
      mapM (λ m : string * json, x ← scalar_of_json m.2; Some (m.1, x)) members
  | _ => None
  end.

(** The keys of the records, each at its first appearance. *)
Definition union_keys (records : list (list (string * scalar))) : list string :=
  fold_left (λ acc k, if bool_decide (k ∈ acc) then acc else acc ++ [k])
            (concat (map (map fst) records)) [].

Definition record_get (key : string) (record : list (string * scalar)) : scalar :=
  default SNaN (snd <$> last (filter (λ m : string * scalar, m.1 = key) record)).

Definition is_SInt (v : scalar) : bool := match v with SInt _ => true | _ => false end.
Definition is_SNaN (v : scalar) : bool := match v with SNaN => true | _ => false end.

(** pandas turns a column of integers and missing values into floats. *)
Definition promoted_to_float (cells : list scalar) : bool :=
  existsb is_SInt cells && existsb is_SNaN cells
  && forallb (λ v, is_SInt v || is_SNaN v) cells.

Definition ref_pd_DataFrame (chunk : list json) : result DataFrame :=
  match mapM record_of_json chunk with
  | None => Raise (NotModelled "pd.DataFrame: an item that is not a flat object")
  | Some records =>
      let columns := map (λ k, (k, map (record_get k) records)) (union_keys records) in
      if existsb (λ c : string * list scalar, promoted_to_float c.2) columns
      then Raise (NotModelled "pd.DataFrame: a float column")
      else Ok {| nrows := length records; cols := columns |}
  end.

(** *** Comma-separated text *)

(** [s.split(sep)] *)
Fixpoint split_on (sep : ascii) (s : string) : list string :=
  match s with
  | EmptyString => [EmptyString]
  | String c s' =>
      if Ascii.eqb c sep then EmptyString :: split_on sep s'
      else match split_on sep s' with
           | h :: t => String c h :: t
           | [] => [String c EmptyString]
           end
  end.

Inductive cell_kind : Type :=
  | CInt (z : Z)
  | CNumeric
  | CBool
  | CMissing
  | CText.

(** The default [na_values] of [read_csv]. *)
Definition na_values : list string :=
  [""; "#N/A"; "#N/A N/A"; "#NA"; "-1.#IND"; "-1.#QNAN"; "-NaN"; "-nan";
   "1.#IND"; "1.#QNAN"; "<NA>"; "N/A"; "NA"; "NULL"; "NaN"; "None"; "n/a";
   "nan"; "null"].

Definition strip_sign (s : list ascii) : list ascii :=
  match s with
  | c :: s' => if Ascii.eqb c "-"%char || Ascii.eqb c "+"%char then s' else s
  | [] => []
  end.

Definition is_blank (c : ascii) : bool := Ascii.eqb c " "%char || Ascii.eqb c TAB.

Definition trim (s : list ascii) : list ascii :=
  rev (snd (take_while is_blank (rev (snd (take_while is_blank s))))).

(** A decimal floating-point literal: digits with an optional fraction and
    an optional exponent, all of the text. *)
Definition is_float_literal (s : list ascii) : bool :=
  let '(int_part, r1) := take_while is_digit (strip_sign s) in
  let '(frac_part, r2) :=
    match r1 with
    | c :: r => if Ascii.eqb c "."%char then take_while is_digit r else ([], r1)
    | [] => ([], r1)
    end in
  if bool_decide (int_part = []) && bool_decide (frac_part = []) then false
  else match r2 with
       | [] => true
       | c :: r3 =>
           if Ascii.eqb c "e"%char || Ascii.eqb c "E"%char
           then let '(exponent, r4) := take_while is_digit (strip_sign r3) in
                negb (bool_decide (exponent = [])) && bool_decide (r4 = [])
           else false
       end.

Definition classify (cell : string) : cell_kind :=
  let s := chars cell in
  let bare := string_of_list_ascii (strip_sign (trim s)) in
  if bool_decide (cell ∈ na_values) then CMissing
  else if forallb is_digit (strip_sign s) && (0 <? length (strip_sign s))%nat
          && (length (strip_sign s) <=? 18)%nat
  then CInt (match s with
             | c :: _ => if Ascii.eqb c "-"%char then - digits_value (strip_sign s)
                         else digits_value (strip_sign s)
             | [] => 0
             end)%Z
  else if is_float_literal (trim s)
          || bool_decide (str_lower bare ∈ ["inf"; "infinity"; "nan"])
  then CNumeric
  else if bool_decide (str_lower cell ∈ ["true"; "false"]) then CBool
  else CText.

Definition is_CInt (k : cell_kind) : bool := match k with CInt _ => true | _ => false end.
Definition is_CMissing (k : cell_kind) : bool := match k with CMissing => true | _ => false end.
Definition is_CBool (k : cell_kind) : bool := match k with CBool => true | _ => false end.
Definition is_numeric (k : cell_kind) : bool :=
  match k with CInt _ | CNumeric | CMissing => true | _ => false end.

(** The cells of one column of one chunk, typed as the parser infers them
    from that chunk alone: integers when every cell is an integer literal,
    otherwise the texts themselves with the missing values blanked. *)
Definition infer_column (cells : list string) : option (list scalar) :=
  let kinds := map classify cells in
  if forallb is_CInt kinds
  then Some (map (λ k, match k with CInt z => SInt z | _ => SNaN end) kinds)
  else if forallb is_CMissing kinds then Some (map (λ _, SNaN) kinds)
  else if forallb is_numeric kinds then None
  else if forallb (λ k, is_CBool k || is_CMissing k) kinds then None
  else Some (map (λ cell, if bool_decide (cell ∈ na_values) then SNaN else SStr cell) cells).

(** The frame of a group of data lines under a header. *)
Definition frame_of_lines (header : list string) (lines : list (list string))
  : result DataFrame :=
  let column i := map (λ line, default EmptyString (line !! i)) lines in
  match mapM (λ i, infer_column (column i)) (seq 0 (length header)) with
  | Some typed => Ok {| nrows := length lines; cols := zip header typed |}
  | None => Raise (NotModelled "read_csv: a float or boolean column")
  end.

(** The header and the data lines of a text: blank lines are skipped; the
    reference reads texts without quotes and carriage returns, with distinct
    non-empty column names and as many cells on each line as the header. *)
Definition csv_lines (content : string) : result (list string * list (list string)) :=
  if existsb (λ c, Ascii.eqb c DQ || Ascii.eqb c CR) (chars content)
  then Raise (NotModelled "read_csv: quoting or carriage returns")
  else
    match filter (λ l, l ≠ EmptyString) (split_on LF content) with
    | [] => Raise (Exn EmptyDataError "No columns to parse from file")
    | first :: rest =>
        let header := split_on ","%char first in
        let lines := map (split_on ","%char) rest in
        if bool_decide (NoDup header) && bool_decide (EmptyString ∉ header)
           && forallb (λ line, length line =? length header)%nat lines
        then Ok (header, lines)
        else Raise (NotModelled "read_csv: duplicate or empty names, or ragged lines")
    end.

(** Consecutive groups of [n] lines, the last one shorter. *)
Fixpoint groups_of {A : Type} (fuel n : nat) (l : list A) : list (list A) :=
  match fuel, l with
  | _, [] => []
  | O, _ => []
  | S fuel', _ => take n l :: groups_of fuel' n (drop n l)
  end.

(** The frames up to the first one that fails. *)
Fixpoint frames_until_error (rs : list (result DataFrame)) : stream DataFrame :=
  match rs with
  | [] => ([], None)
  | Ok df :: rs' => let '(dfs, stop) := frames_until_error rs' in (df :: dfs, stop)
  | Raise e :: _ => ([], Some e)
  end.

Definition ref_read_csv_chunks (content : string) (chunk_size : Z)
  : result (stream DataFrame) :=
  if (chunk_size <? 1)%Z then Raise (Exn ValueError "'chunksize' must be an integer >=1")
  else
    match csv_lines content with
    | Raise e => Raise e
    | Ok (header, []) => Ok (frames_until_error [frame_of_lines header []])
    | Ok (header, lines) =>
        Ok (frames_until_error
              (map (frame_of_lines header)
                   (groups_of (length lines) (Z.to_nat chunk_size) lines)))
    end.

Definition ref_read_csv (content : string) : result DataFrame :=
  match csv_lines content with
  | Raise e => Raise e
  | Ok (header, lines) => frame_of_lines header lines
  end.

(** *** The instance

    The readers above produce no float cell, so the two float printers are
    never called.  [pq.ParquetFile] takes a [str] argument as the path of a
    local file, and the reference has no file system: opening fails.  The
    Parquet codec itself is left out. *)

#[export] Instance reference_library : Library := {|
  float_repr := λ _, "nan";
  float_json := λ _, "null";
  read_csv_chunks := ref_read_csv_chunks;
  read_csv := ref_read_csv;
  ijson_items := ref_ijson_items;
  pd_DataFrame := ref_pd_DataFrame;
  parquet_iter_batches := λ content _,
    Raise (Exn (Subclass "FileNotFoundError" (Subclass "OSError" Exception))
               ("[Errno 2] Failed to open local file '" +:+ content +:+ "'"));
  to_parquet := λ _, Raise (NotModelled "to_parquet");
  pq_read_table := λ _, Raise (NotModelled "pq.read_table");
  json_loads := ref_json_loads;
  decode_utf8 := λ content,
    if forallb (λ c, nat_of_ascii c <? 128)%nat (chars content) then Ok content
    else Raise (NotModelled "decode: bytes above 127")
|}.

End Reference.

(* ================================================================= *)
(** ** Notions the statements use *)

(** The frame with every column named in [fields_list] overwritten by the
    mask value and every other column kept. *)
Definition mask_columns (fields_list : list string) (df : DataFrame) : DataFrame :=
  {| nrows := nrows df;
     cols := map (λ c : string * list scalar,
                    if bool_decide (c.1 ∈ fields_list)
                    then (c.1, replicate (nrows df) MASK) else c)
                 (cols df) |}.

(** The same on one row, whose cells stand under the labels [names]. *)
Definition mask_row (names fields_list : list string) (row : list scalar) : list scalar :=
  zip_with (λ (name : string) (v : scalar),
              if bool_decide (name ∈ fields_list) then MASK else v) names row.

(** The message of the [KeyError] for a missing field. *)
Definition field_not_found (field : string) : string :=
  "Field '" +:+ field +:+ "' not" +:+ "found in the data.".

Section Batches.
Context `{Library}.

(** The frames [process_json_chunk] builds from the items of the document,
    in order: one for each run of [chunk_size] items, then one for the
    items left over at the end of the document.  [chunk] holds the items
    gathered so far. *)
Fixpoint json_batches (objs : list json) (stop : option exn) (chunk_size : Z)
    (chunk : list json) : stream DataFrame :=
  match objs with
  | [] =>
      match stop, chunk with
      | Some e, _ => ([], Some e)
      | None, [] => ([], None)
      | None, _ :: _ =>
          match pd_DataFrame chunk with
          | Ok df => ([df], None)
          | Raise e => ([], Some e)
          end
      end
  | obj :: objs' =>
      let chunk := chunk ++ [obj] in
      if (Z.of_nat (length chunk) =? chunk_size)%Z then
        match pd_DataFrame chunk with
        | Ok df =>
            let '(dfs, stop') := json_batches objs' stop chunk_size [] in (df :: dfs, stop')
        | Raise e => ([], Some e)
        end
      else json_batches objs' stop chunk_size chunk
  end.

(** The row-batches the streaming phase reads for a supported source
    format, in the order it processes them. *)
Definition batches (file_type file_content : string) (chunk_size : Z)
  : result (stream DataFrame) :=
  if bool_decide (file_type = "csv") then read_csv_chunks file_content chunk_size
  else if bool_decide (file_type = "json") then
    let '(objs, stop) := ijson_items file_content in
    Ok (json_batches objs stop chunk_size [])
  else parquet_iter_batches file_content chunk_size.

(** What the chunk writer appends for a run of batches: the header of the
    first one when the run starts the buffer, then the masked rows of each. *)
Definition stream_text (fields_list : list string) (chunks : list DataFrame)
    (is_first_chunk : bool) : string :=
  match chunks with
  | first :: _ => if is_first_chunk then csv_header first else ""
  | [] => ""
  end +:+ join_all (map (λ chunk, csv_body (mask_columns fields_list chunk)) chunks).

(** One masked row as the chunk writer prints it. *)
Definition masked_line (names fields_list : list string) (row : list scalar) : string :=
  csv_line (map csv_cell (mask_row names fields_list row)).

End Batches.



Section Stages.
Context `{Library}.

(** [e0] is the exception that a stage of [handle_file_obfuscation] raises
    on the way: the descriptor, the read, the obfuscation or the write, in
    that order, each one reached only when the stages before it returned. *)
Definition raised_by_stage (s3 : s3_store) (json_string : string)
    (if_output_different_format : bool) (output_format : option string)
    (chunk_size : Z) (if_save_to_s3 : bool) (e0 : exn) : Prop :=
  json_input_handler json_string = Raise e0
  ∨ ∃ (s3_bucket file_key : string) (pii_fields : json) (fields_list : list string),
      json_input_handler json_string = Ok (s3_bucket, file_key, pii_fields)
      ∧ field_names pii_fields = Some fields_list
      ∧ (read_s3_file s3 s3_bucket file_key = Raise e0
         ∨ ∃ content_str file_extension : string,
             read_s3_file s3 s3_bucket file_key = Ok (content_str, file_extension)
             ∧ (obfuscate_file content_str fields_list file_extension
                  (if if_output_different_format then output_format else None)
                  chunk_size = Raise e0
                ∨ ∃ content : string,
                    obfuscate_file content_str fields_list file_extension
                      (if if_output_different_format then output_format else None)
                      chunk_size = Ok content
                    ∧ if_save_to_s3 = true
                    ∧ (write_s3_file s3 s3_bucket
                         (str_replace "new_data" "processed_data" file_key) content).2 =
                      Raise e0)).

End Stages.


(** Modelled on the specification's words for the output key: the source
    key with the first occurrence of [old] replaced. *)
Fixpoint replace_first (old new s : string) : string :=
  match s with
  | EmptyString => EmptyString
  | String c s' =>
      if String.prefix old s
      then new +:+ string_of_list_ascii (drop (String.length old) (chars s))
      else String c (replace_first old new s')
  end.

(** The text behind the first occurrence of [old] in [s], empty when there
    is none. *)
Fixpoint rest_after_first (old s : string) : string :=
  match s with
  | EmptyString => EmptyString
  | String c s' =>
      if String.prefix old s
      then string_of_list_ascii (drop (String.length old) (chars s))
      else rest_after_first old s'
  end.

(* ================================================================= *)
(** ** Inputs of the closed examples *)

(** A batch of two rows. *)
Definition students : DataFrame :=
  {| nrows := 2;
     cols := [("student_id", [SInt 1234; SInt 1235]);
              ("name", [SStr "John Smith"; SStr "Ada Jones"]);
              ("email_address", [SStr "j.smith@email.com"; SNaN])] |}.

(** The same batch with other values in the two personal columns. *)
Definition students_other_values : DataFrame :=
  {| nrows := 2;
     cols := [("student_id", [SInt 1234; SInt 1235]);
              ("name", [SStr "Grace Hopper"; SNaN]);
              ("email_address", [SInt 7; SStr "a.jones@email.com"])] |}.

(** The CSV file of the specification's scenario: a header and one row. *)
Definition students_csv : string :=
  "student_id,name,course,graduation_date,email_address" +:+ nl +:+
  "1234,John Smith,Software,2024-03-31,j.smith@email.com" +:+ nl.

(** The one batch [read_csv] makes of it. *)
Definition students_frame : DataFrame :=
  {| nrows := 1;
     cols := [("student_id", [SInt 1234]);
              ("name", [SStr "John Smith"]);
              ("course", [SStr "Software"]);
              ("graduation_date", [SStr "2024-03-31"]);
              ("email_address", [SStr "j.smith@email.com"])] |}.

(** Two rows whose first column holds [01] and then a text. *)
Definition codes_csv : string :=
  "id,name" +:+ nl +:+ "01,a" +:+ nl +:+ "x,b" +:+ nl.

(** Three rows of text cells. *)
Definition letters_csv : string :=
  "id,name" +:+ nl +:+ "x,a" +:+ nl +:+ "y,b" +:+ nl +:+ "z,c" +:+ nl.

(** The batches [read_csv_chunks] makes of it with chunk size 1: one row
    each. *)
Definition letters_batches : list DataFrame :=
  [ {| nrows := 1; cols := [("id", [SStr "x"]); ("name", [SStr "a"])] |};
    {| nrows := 1; cols := [("id", [SStr "y"]); ("name", [SStr "b"])] |};
    {| nrows := 1; cols := [("id", [SStr "z"]); ("name", [SStr "c"])] |} ].


(** A JSON array that breaks off behind its second item. *)
Definition truncated_json : string := py "[{'name':'a'},{'name':'b'},".

(** A store with the scenario's file under a key that has the staging
    segment twice. *)
Definition staging_store : s3_store :=
  <[("bucket", "new_data/new_data.csv") := students_csv]> ∅.

(** The scenario's file under a key without the staging segment, and
    under a key that has it once, each with its descriptor. *)
Definition plain_store : s3_store :=
  <[("bucket", "data/file.csv") := students_csv]> ∅.

Definition plain_descriptor : string :=
  py "{'file_to_obfuscate': 's3://bucket/data/file.csv', 'pii_fields': ['name']}".

Definition single_store : s3_store :=
  <[("bucket", "new_data/file.csv") := students_csv]> ∅.

Definition single_descriptor : string :=
  py "{'file_to_obfuscate': 's3://bucket/new_data/file.csv', 'pii_fields': ['name']}".

(** The scenario's file with the field [name] masked. *)
Definition students_csv_name_masked : string :=
  "student_id,name,course,graduation_date,email_address" +:+ nl +:+
  "1234,***,Software,2024-03-31,j.smith@email.com" +:+ nl.

Definition descriptor (pii_fields : string) : string :=
  py "{'file_to_obfuscate': 's3://bucket/new_data/new_data.csv', 'pii_fields': "
  +:+ py pii_fields +:+ "}".

(* ================================================================= *)
(** * Properties *)

(** ** The mask engine *)

Lemma frame_eta (df : DataFrame) : {| nrows := nrows df; cols := cols df |} = df.
Proof. by destruct df. Qed.

Lemma columns_mask_columns (fields_list : list string) (df : DataFrame) :
  columns (mask_columns fields_list df) = columns df.
Proof.
  unfold columns, mask_columns; simpl. rewrite map_map.
  apply map_ext. intros c. by case_bool_decide.
Qed.

Lemma mask_columns_nil (df : DataFrame) : mask_columns [] df = df.
Proof.
  unfold mask_columns. rewrite <- (frame_eta df) at 3. f_equal.
  rewrite <- (map_id (cols df)) at 2. apply map_ext. intros c.
  case_bool_decide as Hin; [by apply elem_of_nil in Hin | done].
Qed.

Lemma setitem_present (df : DataFrame) (field : string) (v : scalar) :
  field ∈ columns df →
  setitem df field v =
    {| nrows := nrows df;
       cols := map (λ c : string * list scalar,
                      if bool_decide (c.1 = field) then (c.1, replicate (nrows df) v) else c)
                   (cols df) |}.
Proof. intros Hin. unfold setitem. by rewrite bool_decide_eq_true_2. Qed.

Lemma columns_setitem_present (df : DataFrame) (field : string) (v : scalar) :
  field ∈ columns df → columns (setitem df field v) = columns df.
Proof.
  intros Hin. rewrite setitem_present by done. unfold columns; simpl.
  rewrite map_map. apply map_ext. intros c. by case_bool_decide.
Qed.

Lemma mask_columns_cons (field : string) (fields_list : list string) (df : DataFrame) :
  field ∈ columns df →
  mask_columns fields_list (setitem df field MASK) = mask_columns (field :: fields_list) df.
Proof.
  intros Hin. rewrite setitem_present by done. unfold mask_columns; simpl.
  f_equal. rewrite map_map. apply map_ext. intros [name cells]; simpl.
  destruct (decide (name = field)) as [->|Hne].
  - rewrite (bool_decide_eq_true_2 (field = field)) by done; simpl.
    rewrite (bool_decide_eq_true_2 (field ∈ field :: fields_list))
      by apply list_elem_of_here.
    by case_bool_decide.
  - rewrite (bool_decide_eq_false_2 (name = field)) by done.
    destruct (decide (name ∈ fields_list)) as [Hin'|Hnin].
    + rewrite (bool_decide_eq_true_2 (name ∈ fields_list)) by done.
      by rewrite (bool_decide_eq_true_2 (name ∈ field :: fields_list))
        by (apply elem_of_cons; by right).
    + rewrite (bool_decide_eq_false_2 (name ∈ fields_list)) by done.
      by rewrite (bool_decide_eq_false_2 (name ∈ field :: fields_list))
        by (apply not_elem_of_cons; done).
Qed.

(** When every field is a column the call returns, and the frame is the
    input with those columns masked. *)
Lemma obfuscate_fields_in_df_present (fields_list : list string) (df : DataFrame) :
  (∀ field, field ∈ fields_list → field ∈ columns df) →
  obfuscate_fields_in_df df fields_list = (mask_columns fields_list df, Done).
Proof.
  revert df. induction fields_list as [|field fields_list IH]; intros df Hall; simpl.
  - by rewrite mask_columns_nil.
  - assert (field ∈ columns df) as Hin by (apply Hall, list_elem_of_here).
    rewrite bool_decide_eq_true_2 by done.
    rewrite IH.
    + by rewrite mask_columns_cons.
    + intros f Hf. rewrite columns_setitem_present by done.
      apply Hall, elem_of_cons. by right.
Qed.

(** At the first field that is no column the call raises, and the frame has
    the fields before it masked. *)
Lemma obfuscate_fields_in_df_absent
    (before : list string) (field : string) (after : list string) (df : DataFrame) :
  (∀ f, f ∈ before → f ∈ columns df) →
  field ∉ columns df →
  obfuscate_fields_in_df df (before ++ field :: after) =
    (mask_columns before df, Raised (Exn KeyError (field_not_found field))).
Proof.
  revert df. induction before as [|f before IH]; intros df Hall Hnot; simpl.
  - rewrite bool_decide_eq_false_2 by done. by rewrite mask_columns_nil.
  - assert (f ∈ columns df) as Hin by (apply Hall, list_elem_of_here).
    rewrite bool_decide_eq_true_2 by done.
    rewrite IH.
    + by rewrite mask_columns_cons.
    + intros g Hg. rewrite columns_setitem_present by done.
      apply Hall, elem_of_cons. by right.
    + by rewrite columns_setitem_present.
Qed.

Lemma mask_columns_lookup (fields_list : list string) (df : DataFrame) (i : nat) :
  cols (mask_columns fields_list df) !! i =
    (λ c : string * list scalar,
       if bool_decide (c.1 ∈ fields_list) then (c.1, replicate (nrows df) MASK) else c)
      <$> cols df !! i.
Proof. unfold mask_columns; simpl. apply list_lookup_fmap. Qed.

Lemma mask_columns_masked (fields_list : list string) (df : DataFrame)
    (i : nat) (name : string) (cells : list scalar) :
  cols (mask_columns fields_list df) !! i = Some (name, cells) →
  name ∈ fields_list →
  cells = replicate (nrows df) MASK.
Proof.
  rewrite mask_columns_lookup. intros Hlook Hin.
  destruct (cols df !! i) as [[name' cells']|]; simpl in Hlook; [|done].
  case_bool_decide as Hdec; simpl in *; by simplify_eq.
Qed.

Lemma mask_columns_kept (fields_list : list string) (df : DataFrame)
    (i : nat) (column : string * list scalar) :
  cols df !! i = Some column →
  column.1 ∉ fields_list →
  cols (mask_columns fields_list df) !! i = Some column.
Proof.
  intros Hlook Hnot. rewrite mask_columns_lookup, Hlook; simpl.
  by rewrite bool_decide_eq_false_2.
Qed.

Lemma replicate_all_mask (n : nat) :
  length (replicate n MASK) = n ∧ Forall (λ v, v = SStr "***") (replicate n MASK).
Proof.
  split; [apply length_replicate|].
  apply Forall_forall. intros v Hv. by apply elem_of_replicate in Hv as [-> _].
Qed.

(** C1.  For every row-batch and every field list whose names are all
    columns of the batch, [obfuscate_fields_in_df] returns; the batch it
    returns has the same row count and the same columns in the same order;
    every column named in the list holds the mask string ["***"] on each
    row; every column not in the list is unchanged. *)
Theorem masking_correct (df : DataFrame) (fields_list : list string) :
  (∀ field, field ∈ fields_list → field ∈ columns df) →
  ∃ masked : DataFrame,
    obfuscate_fields_in_df df fields_list = (masked, Done) ∧
    nrows masked = nrows df ∧
    columns masked = columns df ∧
    (∀ i name cells,
        cols masked !! i = Some (name, cells) → name ∈ fields_list →
        length cells = nrows df ∧ Forall (λ v, v = SStr "***") cells) ∧
    (∀ i column,
        cols df !! i = Some column → column.1 ∉ fields_list →
        cols masked !! i = Some column).
Proof.
  intros Hall. exists (mask_columns fields_list df).
  split; [by apply obfuscate_fields_in_df_present|].
  split; [done|].
  split; [apply columns_mask_columns|].
  split.
  - intros i name cells Hlook Hin.
    rewrite (mask_columns_masked _ _ _ _ _ Hlook Hin). apply replicate_all_mask.
  - intros i column. apply mask_columns_kept.
Qed.

Lemma masking_correct_witness :
  ∃ masked : DataFrame,
    obfuscate_fields_in_df students ["name"; "email_address"] = (masked, Done) ∧
    nrows masked = nrows students ∧
    columns masked = columns students ∧
    (∀ i name cells,
        cols masked !! i = Some (name, cells) → name ∈ ["name"; "email_address"] →
        length cells = nrows students ∧ Forall (λ v, v = SStr "***") cells) ∧
    (∀ i column,
        cols students !! i = Some column → column.1 ∉ ["name"; "email_address"] →
        cols masked !! i = Some column).
Proof.
  apply (masking_correct students ["name"; "email_address"]).
  intros field Hfield. apply (bool_decide_unpack _).
  apply elem_of_cons in Hfield as [->|Hfield]; [by vm_compute|].
  apply list_elem_of_singleton in Hfield as ->. by vm_compute.
Defined.

(** C10.  [obfuscate_fields_in_df] works on the caller's batch and takes
    the field names in list order: when a name is no column while the names
    before it are, the call raises the [KeyError] for that name, and the
    caller's batch is left with every earlier field overwritten by the mask
    value on each row and every other column as it was; so the batch differs
    from what the caller passed whenever an earlier field held anything
    else. *)
Theorem masking_partial_on_error
    (df : DataFrame) (before : list string) (field : string) (after : list string) :
  (∀ f, f ∈ before → f ∈ columns df) →
  field ∉ columns df →
  ∃ left_behind : DataFrame,
    obfuscate_fields_in_df df (before ++ field :: after) =
      (left_behind, Raised (Exn KeyError (field_not_found field))) ∧
    (∀ i name cells,
        cols left_behind !! i = Some (name, cells) → name ∈ before →
        length cells = nrows df ∧ Forall (λ v, v = SStr "***") cells) ∧
    (∀ i column,
        cols df !! i = Some column → column.1 ∉ before →
        cols left_behind !! i = Some column) ∧
    (∀ i name cells,
        cols df !! i = Some (name, cells) → name ∈ before →
        cells ≠ replicate (nrows df) MASK → left_behind ≠ df).
Proof.
  intros Hall Hnot. exists (mask_columns before df).
  split; [by apply obfuscate_fields_in_df_absent|].
  split.
  - intros i name cells Hlook Hin.
    rewrite (mask_columns_masked _ _ _ _ _ Hlook Hin). apply replicate_all_mask.
  - split; [intros i column; apply mask_columns_kept|].
    intros i name cells Hlook Hin Hdiff Heq.
    assert (cols (mask_columns before df) !! i = Some (name, cells)) as Hmasked
      by (by rewrite Heq).
    apply Hdiff. by eapply mask_columns_masked.
Qed.

Lemma masking_partial_on_error_witness :
  ∃ left_behind : DataFrame,
    obfuscate_fields_in_df students (["name"] ++ "cohort" :: ["email_address"]) =
      (left_behind, Raised (Exn KeyError (field_not_found "cohort"))) ∧
    (∀ i name cells,
        cols left_behind !! i = Some (name, cells) → name ∈ ["name"] →
        length cells = nrows students ∧ Forall (λ v, v = SStr "***") cells) ∧
    (∀ i column,
        cols students !! i = Some column → column.1 ∉ ["name"] →
        cols left_behind !! i = Some column) ∧
    (∀ i name cells,
        cols students !! i = Some (name, cells) → name ∈ ["name"] →
        cells ≠ replicate (nrows students) MASK → left_behind ≠ students).
Proof.
  apply (masking_partial_on_error students ["name"] "cohort" ["email_address"]).
  - intros f Hf. apply list_elem_of_singleton in Hf as ->.
    apply (bool_decide_unpack _). by vm_compute.
  - apply (bool_decide_unpack _). by vm_compute.
Defined.

(** ** Strings *)

Lemma append_cons (x : ascii) (a b : string) : String x a +:+ b = String x (a +:+ b).
Proof. reflexivity. Qed.

Lemma append_empty_l (a : string) : "" +:+ a = a.
Proof. reflexivity. Qed.

Lemma append_assoc (a b c : string) : (a +:+ b) +:+ c = a +:+ (b +:+ c).
Proof. induction a as [|x a IH]; [done|]. by rewrite !append_cons, IH. Qed.

Lemma append_empty_r (a : string) : a +:+ "" = a.
Proof. induction a as [|x a IH]; [done|]. by rewrite append_cons, IH. Qed.

Lemma join_all_cons (x : string) (l : list string) :
  join_all (x :: l) = x +:+ join_all l.
Proof. done. Qed.

Lemma join_all_app (l k : list string) : join_all (l ++ k) = join_all l +:+ join_all k.
Proof.
  induction l as [|x l IH]; [done|].
  change ((x :: l) ++ k) with (x :: (l ++ k)).
  by rewrite !join_all_cons, IH, append_assoc.
Qed.

Lemma join_all_concat (ls : list (list string)) :
  join_all (concat ls) = join_all (map join_all ls).
Proof.
  induction ls as [|l ls IH]; [done|].
  change (concat (l :: ls)) with (l ++ concat ls).
  change (map join_all (l :: ls)) with (join_all l :: map join_all ls).
  by rewrite join_all_app, join_all_cons, IH.
Qed.

(** ** The streaming phase *)

Section Streaming.
Context `{Library}.

Lemma stream_text_not_first (fields_list : list string) (chunks : list DataFrame) :
  stream_text fields_list chunks false =
    join_all (map (λ chunk, csv_body (mask_columns fields_list chunk)) chunks).
Proof. unfold stream_text. by destruct chunks. Qed.

Lemma csv_header_mask_columns (fields_list : list string) (df : DataFrame) :
  csv_header (mask_columns fields_list df) = csv_header df.
Proof. unfold csv_header. by rewrite columns_mask_columns. Qed.

Lemma stream_text_cons (fields_list : list string) (chunk : DataFrame)
    (chunks : list DataFrame) (is_first_chunk : bool) :
  stream_text fields_list (chunk :: chunks) is_first_chunk =
    to_csv (mask_columns fields_list chunk) is_first_chunk +:+
    join_all (map (λ c, csv_body (mask_columns fields_list c)) chunks).
Proof.
  unfold stream_text, to_csv.
  change (map ?f (chunk :: chunks)) with (f chunk :: map f chunks).
  by rewrite join_all_cons, csv_header_mask_columns, append_assoc.
Qed.

Lemma process_df_chunk_present (chunk : DataFrame) (fields_list : list string)
    (output : string) (is_first_chunk : bool) :
  (∀ field, field ∈ fields_list → field ∈ columns chunk) →
  process_df_chunk chunk fields_list output is_first_chunk =
    (output +:+ to_csv (mask_columns fields_list chunk) is_first_chunk, Done).
Proof.
  intros Hall. unfold process_df_chunk.
  by rewrite obfuscate_fields_in_df_present.
Qed.

Lemma process_df_chunk_absent (chunk : DataFrame)
    (before : list string) (field : string) (after : list string)
    (output : string) (is_first_chunk : bool) :
  (∀ f, f ∈ before → f ∈ columns chunk) →
  field ∉ columns chunk →
  process_df_chunk chunk (before ++ field :: after) output is_first_chunk =
    (output, Raised (Exn KeyError (field_not_found field))).
Proof.
  intros Hall Hnot. unfold process_df_chunk.
  by rewrite obfuscate_fields_in_df_absent.
Qed.

(** Batches that all carry the fields are written one after the other. *)
Lemma for_each_chunk_present (chunks : list DataFrame) (stop : option exn)
    (fields_list : list string) (output : string) (is_first_chunk : bool) :
  (∀ chunk, chunk ∈ chunks → ∀ field, field ∈ fields_list → field ∈ columns chunk) →
  for_each_chunk chunks stop fields_list output is_first_chunk =
    (output +:+ stream_text fields_list chunks is_first_chunk,
     match stop with Some e => Raised e | None => Done end).
Proof.
  revert output is_first_chunk.
  induction chunks as [|chunk chunks IH]; intros output is_first_chunk Hall; simpl.
  - unfold stream_text; simpl. by rewrite append_empty_r.
  - rewrite process_df_chunk_present by (apply Hall, list_elem_of_here).
    rewrite IH by (intros c Hc; apply Hall, elem_of_cons; by right).
    f_equal. by rewrite stream_text_not_first, stream_text_cons, append_assoc.
Qed.

(** The first batch that lacks a field stops the loop with its
    [KeyError]. *)
Lemma for_each_chunk_absent (done_before : list DataFrame) (chunk : DataFrame)
    (rest : list DataFrame) (stop : option exn)
    (before : list string) (field : string) (after : list string)
    (output : string) (is_first_chunk : bool) :
  (∀ c, c ∈ done_before → ∀ f, f ∈ before ++ field :: after → f ∈ columns c) →
  (∀ f, f ∈ before → f ∈ columns chunk) →
  field ∉ columns chunk →
  for_each_chunk (done_before ++ chunk :: rest) stop (before ++ field :: after)
                 output is_first_chunk =
    (output +:+ stream_text (before ++ field :: after) done_before is_first_chunk,
     Raised (Exn KeyError (field_not_found field))).
Proof.
  revert output is_first_chunk.
  induction done_before as [|c done_before IH];
    intros output is_first_chunk Hdone Hbefore Hnot; simpl.
  - rewrite process_df_chunk_absent by done.
    unfold stream_text; simpl. by rewrite append_empty_r.
  - rewrite process_df_chunk_present by (apply Hdone, list_elem_of_here).
    rewrite IH; [|intros c' Hc'; apply Hdone, elem_of_cons; by right|done|done].
    f_equal. by rewrite stream_text_not_first, stream_text_cons, append_assoc.
Qed.

(** The loop of [process_json_chunk] and its final flush process the
    frames of [json_batches] in order. *)
Lemma json_loop_batches (objs : list json) (stop : option exn) (chunk_size : Z)
    (fields_list : list string) (chunk : list json) (is_first_chunk : bool)
    (output : string) :
  match json_loop objs fields_list chunk_size chunk is_first_chunk output with
  | ((_, _, output'), Raised e) => (output', Raised e)
  | ((chunk', is_first_chunk', output'), Done) =>
      match stop with
      | Some e => (output', Raised e)
      | None =>
          match chunk' with
          | [] => (output', Done)
          | _ :: _ =>
              match pd_DataFrame chunk' with
              | Raise e => (output', Raised e)
              | Ok step_df => process_df_chunk step_df fields_list output' is_first_chunk'
              end
          end
      end
  end =
  let '(dfs, stop') := json_batches objs stop chunk_size chunk in
  for_each_chunk dfs stop' fields_list output is_first_chunk.
Proof.
  revert chunk is_first_chunk output.
  induction objs as [|obj objs IH]; intros chunk is_first_chunk output; simpl.
  - destruct stop as [e|]; [done|].
    destruct chunk as [|o chunk]; [done|].
    destruct (pd_DataFrame (o :: chunk)) as [df|e]; [|done]. simpl.
    by destruct (process_df_chunk df fields_list output is_first_chunk) as [o' [|e]].
  - destruct (Z.of_nat (length (chunk ++ [obj])) =? chunk_size)%Z; [|apply IH].
    destruct (pd_DataFrame (chunk ++ [obj])) as [df|e]; [|done].
    specialize (IH [] false).
    destruct (json_batches objs stop chunk_size []) as [dfs stop']. simpl.
    destruct (process_df_chunk df fields_list output is_first_chunk) as [o' [|e]];
      [apply IH | done].
Qed.

Lemma process_json_chunk_batches (file_content : string) (fields_list : list string)
    (output : string) (chunk_size : Z) :
  process_json_chunk file_content fields_list output chunk_size =
    let '(objs, stop) := ijson_items file_content in
    let '(dfs, stop') := json_batches objs stop chunk_size [] in
    for_each_chunk dfs stop' fields_list output true.
Proof.
  unfold process_json_chunk. destruct (ijson_items file_content) as [objs stop].
  rewrite <- json_loop_batches.
  by destruct (json_loop objs fields_list chunk_size [] true output)
    as [[[chunk' first'] output'] [|e]].
Qed.

(** The streaming phase runs the chunk loop over the batches of the
    source. *)
Lemma convert_str_file_content_batches (file_content : string)
    (fields_list : list string) (file_type : string) (chunk_size : Z) :
  file_type ∈ supported_formats →
  convert_str_file_content_to_obfuscated_csv file_content fields_list file_type chunk_size =
    match batches file_type file_content chunk_size with
    | Raise e => Raise e
    | Ok (chunks, stop) => returned (for_each_chunk chunks stop fields_list "" true)
    end.
Proof.
  intros Hsupported. unfold convert_str_file_content_to_obfuscated_csv, batches.
  rewrite bool_decide_eq_true_2 by done; simpl.
  case_bool_decide; [by destruct (read_csv_chunks _ _) as [[??]|]|].
  case_bool_decide.
  - rewrite process_json_chunk_batches.
    destruct (ijson_items file_content) as [objs stop].
    by destruct (json_batches objs stop chunk_size []).
  - unfold process_parquet_chunk.
    by destruct (parquet_iter_batches _ _) as [[??]|].
Qed.

End Streaming.

(** ** Closed checks of hypotheses *)

(** The field hypotheses of the theorems below, in a form that computes. *)
Lemma fields_present_from_Forall (chunks : list DataFrame) (fields_list : list string) :
  Forall (λ chunk, Forall (λ field, field ∈ columns chunk) fields_list) chunks →
  ∀ chunk, chunk ∈ chunks → ∀ field, field ∈ fields_list → field ∈ columns chunk.
Proof.
  intros Hall chunk Hchunk field Hfield.
  rewrite Forall_forall in Hall. specialize (Hall chunk Hchunk).
  rewrite Forall_forall in Hall. by apply Hall.
Qed.

Lemma fields_present_from_Forall1 (chunk : DataFrame) (fields_list : list string) :
  Forall (λ field, field ∈ columns chunk) fields_list →
  ∀ field, field ∈ fields_list → field ∈ columns chunk.
Proof. intros Hall field Hfield. rewrite Forall_forall in Hall. by apply Hall. Qed.

Lemma append_eq_empty (a b : string) : a +:+ b = "" → a = "" ∧ b = "".
Proof. destruct a; [done|]. by rewrite append_cons. Qed.

Lemma csv_line_not_empty (fields : list string) : csv_line fields ≠ "".
Proof.
  unfold csv_line. destruct fields as [|[|c s] [|g fields]]; try done;
    intros Heq; by apply append_eq_empty in Heq as [_ ?].
Qed.

(** ** The header of the intermediate buffer *)

(** The buffer of a streaming phase that reads its batches to the end. *)
Lemma streaming_phase_text `{Library}
    (file_content : string) (fields_list : list string) (file_type : string)
    (chunk_size : Z) (chunks : list DataFrame) :
  file_type ∈ supported_formats →
  batches file_type file_content chunk_size = Ok (chunks, None) →
  (∀ chunk, chunk ∈ chunks → ∀ field, field ∈ fields_list → field ∈ columns chunk) →
  convert_str_file_content_to_obfuscated_csv file_content fields_list file_type chunk_size =
    Ok (match chunks with
        | [] => ""
        | first :: _ =>
            csv_header first +:+
            join_all (map (λ chunk, csv_body (mask_columns fields_list chunk)) chunks)
        end).
Proof.
  intros Hsupported Hbatches Hfields.
  rewrite convert_str_file_content_batches by done. rewrite Hbatches.
  rewrite for_each_chunk_present by done. simpl.
  rewrite append_empty_l. unfold stream_text. by destruct chunks.
Qed.

(** C3, as amended.  For every supported source format, every chunk size
    and every input whose batches the streaming phase reads to the end and
    which all carry the listed fields: when there is at least one batch the
    intermediate buffer is the header line of the first batch followed by
    the masked rows of every batch in order, so the header is written once,
    for the first batch, and for no later one; when there is no batch the
    buffer is empty. *)
Theorem header_written_for_first_batch_only `{Library}
    (file_content : string) (fields_list : list string) (file_type : string)
    (chunk_size : Z) (chunks : list DataFrame) :
  file_type ∈ supported_formats →
  batches file_type file_content chunk_size = Ok (chunks, None) →
  (∀ chunk, chunk ∈ chunks → ∀ field, field ∈ fields_list → field ∈ columns chunk) →
  convert_str_file_content_to_obfuscated_csv file_content fields_list file_type chunk_size =
    Ok (match chunks with
        | [] => ""
        | first :: _ =>
            csv_header first +:+
            join_all (map (λ chunk, csv_body (mask_columns fields_list chunk)) chunks)
        end).
Proof. apply streaming_phase_text. Qed.

Lemma header_written_for_first_batch_only_witness :
  @batches Reference.reference_library "csv" letters_csv 1 = Ok (letters_batches, None)
  ∧ @convert_str_file_content_to_obfuscated_csv Reference.reference_library
      letters_csv ["name"] "csv" 1 =
      Ok (csv_header {| nrows := 1; cols := [("id", [SStr "x"]); ("name", [SStr "a"])] |}
          +:+ join_all (map (λ chunk, @csv_body Reference.reference_library
                                        (mask_columns ["name"] chunk))
                            letters_batches))
  ∧ csv_header {| nrows := 1; cols := [("id", [SStr "x"]); ("name", [SStr "a"])] |}
    +:+ join_all (map (λ chunk, @csv_body Reference.reference_library
                                  (mask_columns ["name"] chunk))
                      letters_batches) =
    "id,name" +:+ nl +:+ "x,***" +:+ nl +:+ "y,***" +:+ nl +:+ "z,***" +:+ nl.
Proof.
  split; [by vm_compute|]. split; [|by vm_compute].
  apply (@header_written_for_first_batch_only Reference.reference_library
           letters_csv ["name"] "csv" 1 letters_batches).
  - apply (bool_decide_unpack _). by vm_compute.
  - by vm_compute.
  - apply fields_present_from_Forall, (bool_decide_unpack _). by vm_compute.
Defined.

(** C3, the claim as stated fails: for the JSON source [[]], which has no
    row, the streaming phase processes no batch and returns the empty
    buffer, in which no header line occurs. *)
Lemma header_missing_without_batches :
  @convert_str_file_content_to_obfuscated_csv Reference.reference_library
    "[]" [] "json" 5000 = Ok ""
  ∧ ∀ (df : DataFrame) (before after : string),
      "" ≠ before +:+ csv_header df +:+ after.
Proof.
  split; [by vm_compute|].
  intros df before after Heq. symmetry in Heq.
  apply append_eq_empty in Heq as [_ Heq].
  apply append_eq_empty in Heq as [Heq _].
  by apply csv_line_not_empty in Heq.
Qed.

(** ** A field that is missing from the data *)

(** C2, as amended.  For every input with a supported source format whose
    reader hands out a batch that lacks a listed field, after batches that
    carry all of them, [obfuscate_file] raises a [KeyError] and returns no
    buffer; the message is the stage label followed by the text that names
    the first listed field missing from that batch. *)
Theorem missing_field_fails `{Library}
    (file_content : string) (before : list string) (field : string)
    (after : list string) (file_type : string) (output_format : option string)
    (chunk_size : Z) (done_before : list DataFrame) (chunk : DataFrame)
    (rest : list DataFrame) (stop : option exn) :
  str_lower file_type ∈ supported_formats →
  batches (str_lower file_type) file_content chunk_size =
    Ok (done_before ++ chunk :: rest, stop) →
  (∀ c, c ∈ done_before → ∀ f, f ∈ before ++ field :: after → f ∈ columns c) →
  (∀ f, f ∈ before → f ∈ columns chunk) →
  field ∉ columns chunk →
  obfuscate_file file_content (before ++ field :: after) file_type output_format chunk_size =
    Raise (Exn KeyError ("Error processing data chunk: " +:+
                         py_repr ("Field '" +:+ field +:+ "' notfound in the data."))).
Proof.
  intros Hsupported Hbatches Hdone Hbefore Hnot.
  unfold obfuscate_file, obfuscate_file_body.
  rewrite convert_str_file_content_batches by done. rewrite Hbatches.
  by rewrite for_each_chunk_absent.
Qed.

Lemma missing_field_fails_witness :
  @obfuscate_file Reference.reference_library
    students_csv (["name"] ++ "cohort" :: []) "csv" None 5000 =
    Raise (Exn KeyError ("Error processing data chunk: " +:+
                         py_repr ("Field '" +:+ "cohort" +:+ "' notfound in the data."))).
Proof.
  apply (@missing_field_fails Reference.reference_library
           students_csv ["name"] "cohort" [] "csv" None 5000 [] students_frame [] None).
  - apply (bool_decide_unpack _). by vm_compute.
  - by vm_compute.
  - intros c Hc. by apply elem_of_nil in Hc.
  - apply fields_present_from_Forall1, (bool_decide_unpack _). by vm_compute.
  - apply (bool_decide_unpack _). by vm_compute.
Defined.

(** C2, the claim as stated fails: the JSON source [[]] has no column, so
    the listed field [name] is absent from the data, and [obfuscate_file]
    with the CSV target returns a buffer, the empty one, and raises
    nothing. *)
Lemma missing_field_unnoticed_without_batches :
  @batches Reference.reference_library "json" "[]" 5000 = Ok ([], None)
  ∧ @obfuscate_file Reference.reference_library "[]" ["name"] "json" (Some "csv") 5000 =
      Ok "".
Proof. split; by vm_compute. Qed.

(** ** Formats outside the supported three *)

(** C5, as amended.  For every source format whose lower-case form is
    outside csv, json and parquet, [obfuscate_file] raises the [ValueError]
    of an unsupported format, which names the lower-case form; and for every
    input whose streaming phase completes, a target format given explicitly
    and outside the three (compared as given, case included) makes
    [obfuscate_file] raise the [ValueError] that names it. *)
Theorem unsupported_format_fails `{Library} :
  (∀ (file_content : string) (fields_list : list string) (file_type : string)
     (output_format : option string) (chunk_size : Z),
      str_lower file_type ∉ supported_formats →
      obfuscate_file file_content fields_list file_type output_format chunk_size =
        Raise (Exn ValueError ("Error reading the file: " +:+
                               not_supported (str_lower file_type))))
  ∧
  (∀ (file_content : string) (fields_list : list string) (file_type : string)
     (format : string) (chunk_size : Z) (output : string),
      convert_str_file_content_to_obfuscated_csv
        file_content fields_list (str_lower file_type) chunk_size = Ok output →
      format ∉ supported_formats →
      obfuscate_file file_content fields_list file_type (Some format) chunk_size =
        Raise (Exn ValueError ("Error reading the file: " +:+ not_supported format))).
Proof.
  split.
  - intros file_content fields_list file_type output_format chunk_size Hnot.
    unfold obfuscate_file, obfuscate_file_body,
      convert_str_file_content_to_obfuscated_csv.
    by rewrite bool_decide_eq_false_2.
  - intros file_content fields_list file_type format chunk_size output Hstream Hnot.
    unfold obfuscate_file, obfuscate_file_body. rewrite Hstream.
    by rewrite bool_decide_eq_false_2.
Qed.

Lemma unsupported_format_fails_witness :
  @obfuscate_file Reference.reference_library students_csv ["name"] "XLSX" None 5000 =
    Raise (Exn ValueError ("Error reading the file: " +:+ not_supported (str_lower "XLSX")))
  ∧
  @obfuscate_file Reference.reference_library students_csv ["name"] "csv" (Some "xlsx") 5000 =
    Raise (Exn ValueError ("Error reading the file: " +:+ not_supported "xlsx")).
Proof.
  split.
  - apply (proj1 (@unsupported_format_fails Reference.reference_library)).
    apply (bool_decide_unpack _). by vm_compute.
  - apply (proj2 (@unsupported_format_fails Reference.reference_library)
             students_csv ["name"] "csv" "xlsx" 5000%Z
             (csv_header students_frame +:+
              @csv_body Reference.reference_library
                (mask_columns ["name"] students_frame))).
    + by vm_compute.
    + apply (bool_decide_unpack _). by vm_compute.
Defined.

(** C5, the claim as stated fails on both halves: the source format [CSV]
    is a string outside the three, and the file is obfuscated; with the
    target format [xlsx] and a field that is no column, the error is the
    [KeyError] of the field, raised before the target is looked at. *)
Lemma unsupported_format_not_always_reported :
  ("CSV" ∉ supported_formats)
  ∧ @obfuscate_file Reference.reference_library students_csv ["name"] "CSV" None 5000 =
      Ok ("student_id,name,course,graduation_date,email_address" +:+ nl +:+
          "1234,***,Software,2024-03-31,j.smith@email.com" +:+ nl)
  ∧ @obfuscate_file Reference.reference_library
      students_csv ["cohort"] "csv" (Some "xlsx") 5000 =
      Raise (Exn KeyError ("Error processing data chunk: " +:+
                           py_repr (field_not_found "cohort"))).
Proof.
  split; [apply (bool_decide_unpack _); by vm_compute|].
  split; by vm_compute.
Qed.

(** ** Chunk sizes that are not positive *)

(** With a chunk size below one the loop never sees a full chunk: it only
    gathers the items. *)
Lemma json_loop_non_positive `{Library} (objs : list json) (fields_list : list string)
    (chunk_size : Z) (chunk : list json) (is_first_chunk : bool) (output : string) :
  (chunk_size ≤ 0)%Z →
  json_loop objs fields_list chunk_size chunk is_first_chunk output =
    ((chunk ++ objs, is_first_chunk, output), Done).
Proof.
  intros Hsize. revert chunk.
  induction objs as [|obj objs IH]; intros chunk; simpl.
  - by rewrite app_nil_r.
  - assert ((Z.of_nat (length (chunk ++ [obj])) =? chunk_size)%Z = false) as ->.
    { apply Z.eqb_neq. rewrite length_app; simpl. lia. }
    rewrite IH. by rewrite <- app_assoc.
Qed.

(** C8, as amended.  For every chunk size less than or equal to 0 the JSON
    reader checks nothing and rejects nothing: it reads the document to its
    end and then processes all the items as one batch, the first one, so
    with its header; a document without items leaves the buffer as it
    was. *)
Theorem json_reader_accepts_non_positive_chunk_size `{Library}
    (file_content : string) (fields_list : list string) (output : string)
    (chunk_size : Z) :
  (chunk_size ≤ 0)%Z →
  process_json_chunk file_content fields_list output chunk_size =
    match ijson_items file_content with
    | (_, Some e) => (output, Raised e)
    | ([], None) => (output, Done)
    | (objs, None) =>
        match pd_DataFrame objs with
        | Raise e => (output, Raised e)
        | Ok step_df => process_df_chunk step_df fields_list output true
        end
    end.
Proof.
  intros Hsize. unfold process_json_chunk.
  destruct (ijson_items file_content) as [objs stop].
  rewrite json_loop_non_positive by done. simpl.
  by destruct stop as [e|], objs as [|obj objs].
Qed.

Lemma json_reader_accepts_non_positive_chunk_size_witness :
  @process_json_chunk Reference.reference_library
    (py "[{'a':1,'b':'x'},{'a':2,'b':'y'}]") ["b"] "" (-4) =
    match @ijson_items Reference.reference_library
            (py "[{'a':1,'b':'x'},{'a':2,'b':'y'}]") with
    | (_, Some e) => ("", Raised e)
    | ([], None) => ("", Done)
    | (objs, None) =>
        match @pd_DataFrame Reference.reference_library objs with
        | Raise e => ("", Raised e)
        | Ok step_df => @process_df_chunk Reference.reference_library step_df ["b"] "" true
        end
    end.
Proof.
  apply (@json_reader_accepts_non_positive_chunk_size Reference.reference_library).
  lia.
Defined.

(** C8, the claim as stated fails: with the chunk sizes 0 and -4 the JSON
    reader raises nothing and the two records are obfuscated and written. *)
Lemma json_reader_does_not_reject_chunk_size_zero :
  @process_json_chunk Reference.reference_library
    (py "[{'a':1,'b':'x'},{'a':2,'b':'y'}]") ["b"] "" 0 =
    ("a,b" +:+ nl +:+ "1,***" +:+ nl +:+ "2,***" +:+ nl, Done)
  ∧ @obfuscate_file Reference.reference_library
      (py "[{'a':1,'b':'x'},{'a':2,'b':'y'}]") ["b"] "json" (Some "csv") (-4) =
      Ok ("a,b" +:+ nl +:+ "1,***" +:+ nl +:+ "2,***" +:+ nl).
Proof. split; by vm_compute. Qed.

(** ** Chunk boundaries *)

Lemma row_at_mask_columns (fields_list : list string) (df : DataFrame) (i : nat) :
  i < nrows df →
  row_at (mask_columns fields_list df) i =
    mask_row (columns df) fields_list (row_at df i).
Proof.
  intros Hi. unfold row_at, mask_row, columns, mask_columns; simpl.
  generalize (nrows df) Hi. intros n Hn.
  induction (cols df) as [|[name cells] l IH]; simpl; [done|].
  f_equal; [|apply IH].
  case_bool_decide; simpl; [|done].
  by rewrite lookup_replicate_2.
Qed.

Lemma rows_mask_columns (fields_list : list string) (df : DataFrame) :
  rows (mask_columns fields_list df) =
    map (mask_row (columns df) fields_list) (rows df).
Proof.
  unfold rows. rewrite map_map. simpl. apply map_ext_in.
  intros i Hi. apply in_seq in Hi. apply row_at_mask_columns. lia.
Qed.

Section Chunking.
Context `{Library}.

Lemma csv_body_mask_columns (fields_list : list string) (df : DataFrame) :
  csv_body (mask_columns fields_list df) =
    join_all (map (masked_line (columns df) fields_list) (rows df)).
Proof. unfold csv_body. by rewrite rows_mask_columns, map_map. Qed.

(** The rows written for a run of batches with the same columns depend on
    the rows alone, not on where one batch ends and the next begins. *)
Lemma bodies_by_rows (names fields_list : list string) (chunks : list DataFrame) :
  (∀ chunk, chunk ∈ chunks → columns chunk = names) →
  join_all (map (λ chunk, csv_body (mask_columns fields_list chunk)) chunks) =
    join_all (map (masked_line names fields_list) (concat (map rows chunks))).
Proof.
  induction chunks as [|chunk chunks IH]; intros Hnames; [done|].
  change (map ?f (chunk :: chunks)) with (f chunk :: map f chunks).
  change (concat (?l :: ?ls)) with (l ++ concat ls).
  rewrite join_all_cons, map_app, join_all_app.
  rewrite IH by (intros c Hc; apply Hnames, elem_of_cons; by right).
  rewrite csv_body_mask_columns.
  by rewrite (Hnames chunk) by apply list_elem_of_here.
Qed.

(** C4, as amended.  For a fixed input content, field list and formats, the
    output of [obfuscate_file] is the same for two chunk sizes whenever the
    batches the reader hands out for them carry the same column names and,
    put end to end, the same rows, cell by cell as the reader typed them
    for each batch. *)
Theorem chunk_size_invariance
    (file_content : string) (fields_list : list string) (file_type : string)
    (output_format : option string) (chunk_size1 chunk_size2 : Z)
    (chunks1 chunks2 : list DataFrame) (names : list string) :
  str_lower file_type ∈ supported_formats →
  batches (str_lower file_type) file_content chunk_size1 = Ok (chunks1, None) →
  batches (str_lower file_type) file_content chunk_size2 = Ok (chunks2, None) →
  (∀ chunk, chunk ∈ chunks1 ++ chunks2 → columns chunk = names) →
  (∀ field, field ∈ fields_list → field ∈ names) →
  (chunks1 = [] ↔ chunks2 = []) →
  concat (map rows chunks1) = concat (map rows chunks2) →
  obfuscate_file file_content fields_list file_type output_format chunk_size1 =
  obfuscate_file file_content fields_list file_type output_format chunk_size2.
Proof.
  intros Hsupported Hbatches1 Hbatches2 Hnames Hfields Hempty Hrows.
  assert (∀ chunks : list DataFrame,
            (∀ chunk, chunk ∈ chunks → columns chunk = names) →
            ∀ chunk, chunk ∈ chunks → ∀ field, field ∈ fields_list →
            field ∈ columns chunk) as Hpresent.
  { intros chunks Hcols chunk Hchunk field Hfield.
    rewrite (Hcols chunk Hchunk). by apply Hfields. }
  assert (∀ chunk, chunk ∈ chunks1 → columns chunk = names) as Hnames1
    by (intros c Hc; apply Hnames, elem_of_app; by left).
  assert (∀ chunk, chunk ∈ chunks2 → columns chunk = names) as Hnames2
    by (intros c Hc; apply Hnames, elem_of_app; by right).
  unfold obfuscate_file, obfuscate_file_body.
  rewrite (streaming_phase_text _ _ _ _ chunks1
             Hsupported Hbatches1 (Hpresent _ Hnames1)).
  rewrite (streaming_phase_text _ _ _ _ chunks2
             Hsupported Hbatches2 (Hpresent _ Hnames2)).
  destruct chunks1 as [|first1 rest1], chunks2 as [|first2 rest2].
  - done.
  - discriminate (proj1 Hempty eq_refl).
  - discriminate (proj2 Hempty eq_refl).
  - rewrite !(bodies_by_rows names) by done. rewrite Hrows.
    unfold csv_header.
    rewrite (Hnames1 first1) by apply list_elem_of_here.
    by rewrite (Hnames2 first2) by apply list_elem_of_here.
Qed.

End Chunking.

Lemma chunk_size_invariance_witness :
  @obfuscate_file Reference.reference_library letters_csv ["name"] "csv" None 1 =
  @obfuscate_file Reference.reference_library letters_csv ["name"] "csv" None 7.
Proof.
  eapply (@chunk_size_invariance Reference.reference_library
            letters_csv ["name"] "csv" None 1 7 _ _ ["id"; "name"]).
  - apply (bool_decide_unpack _). by vm_compute.
  - vm_compute. reflexivity.
  - vm_compute. reflexivity.
  - apply Forall_forall, (bool_decide_unpack _). by vm_compute.
  - apply Forall_forall, (bool_decide_unpack _). by vm_compute.
  - split; intros Heq; discriminate Heq.
  - by vm_compute.
Defined.

(** C4, the claim as stated fails: for the two-row file [codes_csv] and the
    field [name], chunk size 1 types the cell [01] on its own as the
    integer 1, while chunk sizes 2, the row count, and 7 type the column as
    text and keep [01]; the outputs differ. *)
Lemma chunk_size_changes_output :
  @obfuscate_file Reference.reference_library codes_csv ["name"] "csv" None 1 =
    Ok ("id,name" +:+ nl +:+ "1,***" +:+ nl +:+ "x,***" +:+ nl)
  ∧ @obfuscate_file Reference.reference_library codes_csv ["name"] "csv" None 2 =
      Ok ("id,name" +:+ nl +:+ "01,***" +:+ nl +:+ "x,***" +:+ nl)
  ∧ @obfuscate_file Reference.reference_library codes_csv ["name"] "csv" None 7 =
      Ok ("id,name" +:+ nl +:+ "01,***" +:+ nl +:+ "x,***" +:+ nl)
  ∧ @obfuscate_file Reference.reference_library codes_csv ["name"] "csv" None 1 ≠
    @obfuscate_file Reference.reference_library codes_csv ["name"] "csv" None 2.
Proof. repeat split; by vm_compute. Qed.

(** ** Conversion of the masked buffer to JSON lines *)















(** ** The entry point, stage by stage *)

Section EntryPoint.
Context `{Library}.

(** Once the descriptor is parsed and the object is read, the entry point
    obfuscates and then saves or returns. *)
Lemma handle_file_obfuscation_stages
    (s3 : s3_store) (json_string : string) (if_output_different_format : bool)
    (output_format : option string) (chunk_size : Z) (if_save_to_s3 : bool)
    (s3_bucket file_key : string) (pii_fields : json) (fields_list : list string)
    (content_str file_extension : string) :
  json_input_handler json_string = Ok (s3_bucket, file_key, pii_fields) →
  field_names pii_fields = Some fields_list →
  read_s3_file s3 s3_bucket file_key = Ok (content_str, file_extension) →
  handle_file_obfuscation s3 json_string if_output_different_format output_format
                          chunk_size if_save_to_s3 =
    match obfuscate_file content_str fields_list file_extension
            (if if_output_different_format then output_format else None) chunk_size with
    | Raise e => Some (s3, reraise e)
    | Ok content =>
        if if_save_to_s3 then
          match write_s3_file s3 s3_bucket
                  (str_replace "new_data" "processed_data" file_key) content with
          | (s3', Raise e) => Some (s3', reraise e)
          | (s3', Ok _) =>
              Some (s3', Ok (Saved ("Obfuscated file saved to s3://" +:+
                                    s3_bucket +:+ "/" +:+
                                    str_replace "new_data" "processed_data" file_key)))
          end
        else Some (s3, Ok (Buffer content))
    end.
Proof.
  intros Hdescriptor Hfields Hread. unfold handle_file_obfuscation.
  rewrite Hdescriptor, Hfields. cbn [mbind option_bind]. by rewrite Hread.
Qed.

(** Writing a text object stores its decoded body under the key. *)
Lemma write_s3_file_text (s3 : s3_store) (s3_bucket file_key content body : string) :
  file_extension_of file_key ∈ ["csv"; "json"] →
  decode_utf8 content = Ok body →
  write_s3_file s3 s3_bucket file_key content =
    (<[(s3_bucket, file_key) := body]> s3,
     Ok (file_key +:+ " has been successfully " +:+
         "uploaded to s3 bucket " +:+ s3_bucket)).
Proof.
  intros Hextension Hdecode. unfold write_s3_file.
  rewrite bool_decide_eq_true_2 by done. by rewrite Hdecode.
Qed.

End EntryPoint.

(** ** Errors on the way to the caller *)

(** C7, as amended.  [obfuscate_file] re-raises by the class of the error,
    whatever stage raised it: a [KeyError] as a [KeyError] whose message
    starts with [Error processing data chunk: ], any other [ValueError] as a
    [ValueError] whose message starts with [Error reading the file: ], and
    everything else as a plain [Exception] whose message starts with
    [Unexpected error in obfuscating file: ]; the rest of the message is
    the text of the original.  [handle_file_obfuscation] re-raises every
    error as a plain [Exception]: the exception that reaches its caller is
    [Exception(str(e0))] for the exception [e0] that one of its stages
    raised, so it carries the text of the original and not its class. *)
Theorem errors_rewrapped_by_class `{Library} :
  (∀ (file_content : string) (fields_list : list string) (file_type : string)
     (output_format : option string) (chunk_size : Z) (e0 : exn),
      obfuscate_file_body file_content fields_list file_type output_format chunk_size =
        Raise e0 →
      ∃ e, obfuscate_file file_content fields_list file_type output_format chunk_size =
             Raise e ∧
           ((issubclass (exn_type e0) KeyError = true ∧
             e = Exn KeyError ("Error processing data chunk: " +:+ py_str e0)) ∨
            (issubclass (exn_type e0) KeyError = false ∧
             issubclass (exn_type e0) ValueError = true ∧
             e = Exn ValueError ("Error reading the file: " +:+ py_str e0)) ∨
            (issubclass (exn_type e0) KeyError = false ∧
             issubclass (exn_type e0) ValueError = false ∧
             e = Exn Exception ("Unexpected error in obfuscating file: " +:+ py_str e0))))
  ∧
  (∀ (s3 s3' : s3_store) (json_string : string) (if_output_different_format : bool)
     (output_format : option string) (chunk_size : Z) (if_save_to_s3 : bool) (e : exn),
      handle_file_obfuscation s3 json_string if_output_different_format output_format
                              chunk_size if_save_to_s3 = Some (s3', Raise e) →
      exn_type e = Exception
      ∧ ∃ e0 : exn,
          raised_by_stage s3 json_string if_output_different_format output_format
                          chunk_size if_save_to_s3 e0
          ∧ e = Exn Exception (py_str e0)).
Proof.
  split.
  - intros file_content fields_list file_type output_format chunk_size e0 Hbody.
    unfold obfuscate_file. rewrite Hbody. eexists. split; [done|].
    unfold obfuscate_file_except.
    destruct (issubclass (exn_type e0) KeyError); [by left|].
    destruct (issubclass (exn_type e0) ValueError); [right; by left|].
    right. by right.
  - intros s3 s3' json_string different output_format chunk_size save e.
    unfold handle_file_obfuscation, reraise.
    destruct (json_input_handler json_string) as [[[bucket key] pii]|e1] eqn:Hdescriptor.
    2:{ intros Heq; simplify_eq. split; [done|]. exists e1. split; [by left|done]. }
    destruct (field_names pii) as [fields_list|] eqn:Hfields; simpl; [|done].
    destruct (read_s3_file s3 bucket key) as [[content extension]|e2] eqn:Hread.
    2:{ intros Heq; simplify_eq. split; [done|]. exists e2. split; [|done].
        right. exists bucket, key, pii, fields_list.
        split; [done|]. split; [done|]. by left. }
    destruct (obfuscate_file _ _ _ _ _) as [buffer|e3] eqn:Hobfuscate.
    2:{ intros Heq; simplify_eq. split; [done|]. exists e3. split; [|done].
        right. exists bucket, key, pii, fields_list.
        split; [done|]. split; [done|].
        right. exists content, extension. split; [done|]. by left. }
    destruct save; [|done].
    destruct (write_s3_file _ _ _ _) as [s3'' [message|e4]] eqn:Hwrite;
      intros Heq; simplify_eq.
    split; [done|]. exists e4. split; [|done].
    right. exists bucket, key, pii, fields_list.
    split; [done|]. split; [done|].
    right. exists content, extension. split; [done|].
    right. exists buffer. split; [done|]. split; [done|]. by rewrite Hwrite.
Qed.

Lemma errors_rewrapped_by_class_witness :
  (∃ e, @obfuscate_file Reference.reference_library
          students_csv ["cohort"] "csv" None 5000 = Raise e ∧
        ((issubclass (exn_type (Exn KeyError (field_not_found "cohort"))) KeyError = true ∧
          e = Exn KeyError ("Error processing data chunk: " +:+
                            py_str (Exn KeyError (field_not_found "cohort")))) ∨
         (issubclass (exn_type (Exn KeyError (field_not_found "cohort"))) KeyError = false ∧
          issubclass (exn_type (Exn KeyError (field_not_found "cohort"))) ValueError = true ∧
          e = Exn ValueError ("Error reading the file: " +:+
                              py_str (Exn KeyError (field_not_found "cohort")))) ∨
         (issubclass (exn_type (Exn KeyError (field_not_found "cohort"))) KeyError = false ∧
          issubclass (exn_type (Exn KeyError (field_not_found "cohort"))) ValueError = false ∧
          e = Exn Exception ("Unexpected error in obfuscating file: " +:+
                             py_str (Exn KeyError (field_not_found "cohort"))))))
  ∧ (exn_type (Exn Exception
                 (py_str (Exn KeyError ("Error processing data chunk: " +:+
                                        py_repr (field_not_found "cohort"))))) = Exception
     ∧ ∃ e0 : exn,
         @raised_by_stage Reference.reference_library
           staging_store (descriptor "['cohort']") false None 5000 true e0
         ∧ Exn Exception
             (py_str (Exn KeyError ("Error processing data chunk: " +:+
                                    py_repr (field_not_found "cohort")))) =
           Exn Exception (py_str e0)).
Proof.
  split.
  - apply (proj1 (@errors_rewrapped_by_class Reference.reference_library)).
    by vm_compute.
  - apply (proj2 (@errors_rewrapped_by_class Reference.reference_library)
             staging_store staging_store (descriptor "['cohort']") false None 5000%Z true).
    rewrite (@handle_file_obfuscation_stages Reference.reference_library
               staging_store (descriptor "['cohort']") false None 5000%Z true
               "bucket" "new_data/new_data.csv" (JArr [JStr "cohort"]) ["cohort"]
               students_csv "csv") by (by vm_compute).
    replace (@obfuscate_file Reference.reference_library
               students_csv ["cohort"] "csv" None 5000)
      with (@Raise string (Exn KeyError ("Error processing data chunk: " +:+
                                         py_repr (field_not_found "cohort"))))
      by (by vm_compute).
    reflexivity.
Defined.

(** C7, the claim as stated fails.  Through [handle_file_obfuscation] the
    [KeyError] of a missing field reaches the caller as a plain
    [Exception], which is no [KeyError]; and the parse error that ijson
    raises for the truncated JSON source [[] comes out of [obfuscate_file]
    as a plain [Exception] under neither of the two stage labels. *)
Lemma error_kind_lost_on_the_way :
  @obfuscate_file Reference.reference_library students_csv ["cohort"] "csv" None 5000 =
    Raise (Exn KeyError ("Error processing data chunk: " +:+
                         py_repr (field_not_found "cohort")))
  ∧ snd <$> @handle_file_obfuscation Reference.reference_library
              staging_store (descriptor "['cohort']") false None 5000 true =
      Some (Raise (Exn Exception
                     (py_repr ("Error processing data chunk: " +:+
                               py_repr (field_not_found "cohort")))))
  ∧ issubclass Exception KeyError = false
  ∧ @ijson_items Reference.reference_library "[" =
      ([], Some (Exn (Subclass "JSONError" Exception) "parse error"))
  ∧ @obfuscate_file Reference.reference_library "[" [] "json" None 5000 =
      Raise (Exn Exception "Unexpected error in obfuscating file: parse error").
Proof. repeat split; by vm_compute. Qed.

(** ** The output key *)

Lemma prefix_append (old rest : string) : String.prefix old (old +:+ rest) = true.
Proof.
  induction old as [|c old IH]; [by destruct rest|].
  rewrite append_cons. simpl. by destruct (ascii_dec c c).
Qed.

Lemma replace_from_skip (old new skipped rest : string) :
  replace_from old new (String.length skipped) (skipped +:+ rest) =
    replace_from old new 0 rest.
Proof.
  induction skipped as [|c skipped IH]; [by destruct rest|].
  rewrite append_cons. simpl. apply IH.
Qed.

(** An occurrence at the front is replaced, and the scan goes on behind
    it. *)
Lemma str_replace_occurrence (c : ascii) (old new rest : string) :
  str_replace (String c old) new (String c old +:+ rest) =
    new +:+ str_replace (String c old) new rest.
Proof.
  unfold str_replace. rewrite append_cons.
  change (replace_from (String c old) new 0 (String c (old +:+ rest)))
    with (if String.prefix (String c old) (String c (old +:+ rest))
          then new +:+ replace_from (String c old) new
                         (String.length (String c old) - 1) (old +:+ rest)
          else String c (replace_from (String c old) new 0 (old +:+ rest))).
  rewrite <- append_cons, prefix_append. f_equal.
  replace (String.length (String c old) - 1) with (String.length old) by (simpl; lia).
  apply replace_from_skip.
Qed.

(** A character that starts no occurrence is kept. *)
Lemma str_replace_other (old new : string) (c : ascii) (s : string) :
  String.prefix old (String c s) = false →
  str_replace old new (String c s) = String c (str_replace old new s).
Proof.
  intros Hprefix. unfold str_replace.
  change (replace_from old new 0 (String c s))
    with (if String.prefix old (String c s)
          then new +:+ replace_from old new (String.length old - 1) s
          else String c (replace_from old new 0 s)).
  by rewrite Hprefix.
Qed.

(** C9, as amended.  When the obfuscated result is persisted, the output
    key is the source key with every occurrence of [new_data] replaced by
    [processed_data], taken from the left without overlap: an occurrence is
    replaced and the scan goes on behind it, and a character that starts no
    occurrence is kept.  The result is written under that key in the source
    bucket and the confirmation names it.  When the result is not
    persisted, the buffer is returned and the store is untouched. *)
Theorem output_key_convention `{Library}
    (s3 : s3_store) (json_string : string) (if_output_different_format : bool)
    (output_format : option string) (chunk_size : Z)
    (s3_bucket file_key : string) (pii_fields : json) (fields_list : list string)
    (content_str file_extension content : string) :
  json_input_handler json_string = Ok (s3_bucket, file_key, pii_fields) →
  field_names pii_fields = Some fields_list →
  read_s3_file s3 s3_bucket file_key = Ok (content_str, file_extension) →
  obfuscate_file content_str fields_list file_extension
    (if if_output_different_format then output_format else None) chunk_size = Ok content →
  let output_file_key := str_replace "new_data" "processed_data" file_key in
  handle_file_obfuscation s3 json_string if_output_different_format output_format
                          chunk_size false = Some (s3, Ok (Buffer content))
  ∧ (∀ s3' message,
        write_s3_file s3 s3_bucket output_file_key content = (s3', Ok message) →
        handle_file_obfuscation s3 json_string if_output_different_format output_format
                                chunk_size true =
          Some (s3', Ok (Saved ("Obfuscated file saved to s3://" +:+
                                s3_bucket +:+ "/" +:+ output_file_key)))
        ∧ ∃ body, s3' = <[(s3_bucket, output_file_key) := body]> s3)
  ∧ (∀ rest, str_replace "new_data" "processed_data" ("new_data" +:+ rest) =
             "processed_data" +:+ str_replace "new_data" "processed_data" rest)
  ∧ (∀ c s, String.prefix "new_data" (String c s) = false →
            str_replace "new_data" "processed_data" (String c s) =
              String c (str_replace "new_data" "processed_data" s)).
Proof.
  intros Hdescriptor Hfields Hread Hobfuscate output_file_key.
  split; [|split; [|split]].
  - rewrite (handle_file_obfuscation_stages _ _ _ _ _ _ _ _ _ _ _ _
               Hdescriptor Hfields Hread).
    by rewrite Hobfuscate.
  - intros s3' message Hwrite. split.
    + rewrite (handle_file_obfuscation_stages _ _ _ _ _ _ _ _ _ _ _ _
                 Hdescriptor Hfields Hread).
      rewrite Hobfuscate. fold output_file_key. by rewrite Hwrite.
    + unfold write_s3_file in Hwrite.
      repeat case_match; simplify_eq; by eexists.
  - intros rest. apply str_replace_occurrence.
  - intros c s. apply str_replace_other.
Qed.

Lemma output_key_convention_witness :
  let output_file_key := str_replace "new_data" "processed_data" "new_data/new_data.csv" in
  let content := "student_id,name,course,graduation_date,email_address" +:+ nl +:+
                 "1234,***,Software,2024-03-31,j.smith@email.com" +:+ nl in
  @handle_file_obfuscation Reference.reference_library
    staging_store (descriptor "['name']") false None 5000 false =
    Some (staging_store, Ok (Buffer content))
  ∧ (∀ s3' message,
        @write_s3_file Reference.reference_library
          staging_store "bucket" output_file_key content = (s3', Ok message) →
        @handle_file_obfuscation Reference.reference_library
          staging_store (descriptor "['name']") false None 5000 true =
          Some (s3', Ok (Saved ("Obfuscated file saved to s3://" +:+
                                "bucket" +:+ "/" +:+ output_file_key)))
        ∧ ∃ body, s3' = <[("bucket", output_file_key) := body]> staging_store)
  ∧ (∀ rest, str_replace "new_data" "processed_data" ("new_data" +:+ rest) =
             "processed_data" +:+ str_replace "new_data" "processed_data" rest)
  ∧ (∀ c s, String.prefix "new_data" (String c s) = false →
            str_replace "new_data" "processed_data" (String c s) =
              String c (str_replace "new_data" "processed_data" s)).
Proof.
  apply (@output_key_convention Reference.reference_library
           staging_store (descriptor "['name']") false None 5000%Z
           "bucket" "new_data/new_data.csv" (JArr [JStr "name"]) ["name"]
           students_csv "csv").
  - by vm_compute.
  - by vm_compute.
  - by vm_compute.
  - by vm_compute.
Defined.

(** C9, the claim as stated fails: for the source key
    [new_data/new_data.csv] the result is saved under
    [processed_data/processed_data.csv], with both occurrences replaced,
    and nothing is stored under [processed_data/new_data.csv], the key with
    only the first occurrence replaced. *)
Lemma output_key_replaces_every_occurrence :
  replace_first "new_data" "processed_data" "new_data/new_data.csv" =
    "processed_data/new_data.csv"
  ∧ ∃ s3' : s3_store,
      @handle_file_obfuscation Reference.reference_library
        staging_store (descriptor "['name']") false None 5000 true =
        Some (s3', Ok (Saved ("Obfuscated file saved to s3://bucket/" +:+
                              "processed_data/processed_data.csv")))
      ∧ s3' !! ("bucket", "processed_data/new_data.csv") = None
      ∧ s3' !! ("bucket", "processed_data/processed_data.csv") =
          Some ("student_id,name,course,graduation_date,email_address" +:+ nl +:+
                "1234,***,Software,2024-03-31,j.smith@email.com" +:+ nl).
Proof.
  split; [by vm_compute|].
  exists (<[("bucket", "processed_data/processed_data.csv") :=
              "student_id,name,course,graduation_date,email_address" +:+ nl +:+
              "1234,***,Software,2024-03-31,j.smith@email.com" +:+ nl]> staging_store).
  split; [|split].
  - rewrite (@handle_file_obfuscation_stages Reference.reference_library
               staging_store (descriptor "['name']") false None 5000%Z true
               "bucket" "new_data/new_data.csv" (JArr [JStr "name"]) ["name"]
               students_csv "csv") by (by vm_compute).
    replace (@obfuscate_file Reference.reference_library
               students_csv ["name"] "csv" None 5000)
      with (@Ok string ("student_id,name,course,graduation_date,email_address" +:+ nl +:+
                        "1234,***,Software,2024-03-31,j.smith@email.com" +:+ nl))
      by (by vm_compute).
    replace (str_replace "new_data" "processed_data" "new_data/new_data.csv")
      with "processed_data/processed_data.csv" by (by vm_compute).
    cbv iota.
    by rewrite (@write_s3_file_text Reference.reference_library staging_store "bucket"
                  "processed_data/processed_data.csv" _
                  ("student_id,name,course,graduation_date,email_address" +:+ nl +:+
                   "1234,***,Software,2024-03-31,j.smith@email.com" +:+ nl))
      by (first [apply (bool_decide_unpack _)|idtac]; by vm_compute).
  - rewrite lookup_insert_ne by (by intros [=]).
    unfold staging_store. rewrite lookup_insert_ne by (by intros [=]).
    apply lookup_empty.
  - apply lookup_insert_eq.
Qed.

(* ================================================================= *)
(** * Further properties of the code *)

(** ** The mask engine: idempotence, order, invariants *)

Lemma mask_columns_idempotent (fields_list : list string) (df : DataFrame) :
  mask_columns fields_list (mask_columns fields_list df) = mask_columns fields_list df.
Proof.
  unfold mask_columns; simpl. f_equal. rewrite map_map. apply map_ext.
  intros [name cells]; simpl.
  destruct (decide (name ∈ fields_list)) as [Hin|Hnot].
  - rewrite (bool_decide_eq_true_2 (name ∈ fields_list)) by done; simpl.
    by rewrite (bool_decide_eq_true_2 (name ∈ fields_list)) by done.
  - rewrite (bool_decide_eq_false_2 (name ∈ fields_list)) by done; simpl.
    by rewrite (bool_decide_eq_false_2 (name ∈ fields_list)) by done.
Qed.

(** X1.  Masking is idempotent: when every field is a column, masking the
    batch that a first call returned, with the same field list, returns
    again and leaves that batch as it is. *)
Theorem masking_idempotent (df : DataFrame) (fields_list : list string) :
  (∀ field, field ∈ fields_list → field ∈ columns df) →
  ∃ masked : DataFrame,
    obfuscate_fields_in_df df fields_list = (masked, Done) ∧
    obfuscate_fields_in_df masked fields_list = (masked, Done).
Proof.
  intros Hall. exists (mask_columns fields_list df).
  split; [by apply obfuscate_fields_in_df_present|].
  rewrite obfuscate_fields_in_df_present.
  - by rewrite mask_columns_idempotent.
  - intros field Hfield. rewrite columns_mask_columns. by apply Hall.
Qed.

Lemma masking_idempotent_witness :
  ∃ masked : DataFrame,
    obfuscate_fields_in_df students ["name"; "email_address"] = (masked, Done) ∧
    obfuscate_fields_in_df masked ["name"; "email_address"] = (masked, Done).
Proof.
  apply (masking_idempotent students ["name"; "email_address"]).
  apply fields_present_from_Forall1, (bool_decide_unpack _). by vm_compute.
Defined.

(** X2.  The result of masking depends on the set of listed fields only:
    two field lists with the same members, in any order and with any
    repetitions, all of them columns, give the same outcome and the same
    batch. *)
Theorem masking_order_irrelevant (df : DataFrame) (fields1 fields2 : list string) :
  (∀ field, field ∈ fields1 ↔ field ∈ fields2) →
  (∀ field, field ∈ fields1 → field ∈ columns df) →
  obfuscate_fields_in_df df fields1 = obfuscate_fields_in_df df fields2.
Proof.
  intros Hsame Hall.
  rewrite !obfuscate_fields_in_df_present;
    [|intros field Hfield; by apply Hall, Hsame|done].
  f_equal. unfold mask_columns. f_equal. apply map_ext. intros c.
  by rewrite (bool_decide_ext _ _ (Hsame c.1)).
Qed.

Lemma masking_order_irrelevant_witness :
  obfuscate_fields_in_df students ["name"; "email_address"] =
  obfuscate_fields_in_df students ["email_address"; "name"; "email_address"].
Proof.
  apply (masking_order_irrelevant students).
  - intros field. rewrite !elem_of_cons, !elem_of_nil. tauto.
  - apply fields_present_from_Forall1, (bool_decide_unpack _). by vm_compute.
Defined.

Lemma rectangular_setitem (df : DataFrame) (field : string) (v : scalar) :
  rectangular df → rectangular (setitem df field v).
Proof.
  unfold rectangular, setitem. intros Hrect.
  case_bool_decide; simpl.
  - apply Forall_fmap. eapply Forall_impl; [exact Hrect|].
    intros [name cells] Hlen; simpl in *.
    case_bool_decide; simpl; [apply length_replicate | done].
  - apply Forall_app. split; [done|].
    apply Forall_singleton. simpl. apply length_replicate.
Qed.

(** X3.  Whatever the field list and however the call ends, returning or
    raising at a missing field, [obfuscate_fields_in_df] leaves the
    caller's batch with its row count, its column names in their order,
    and every column as long as the index. *)
Theorem masking_keeps_shape (df : DataFrame) (fields_list : list string) :
  rectangular df →
  nrows (obfuscate_fields_in_df df fields_list).1 = nrows df ∧
  columns (obfuscate_fields_in_df df fields_list).1 = columns df ∧
  rectangular (obfuscate_fields_in_df df fields_list).1.
Proof.
  revert df. induction fields_list as [|field fields_list IH]; intros df Hrect; simpl.
  - done.
  - case_bool_decide as Hin; simpl; [|done].
    destruct (IH (setitem df field MASK)) as (Hn & Hc & Hr).
    { by apply rectangular_setitem. }
    rewrite Hn, Hc. split; [|split; [|done]].
    + by rewrite setitem_present.
    + by apply columns_setitem_present.
Qed.

Lemma masking_keeps_shape_witness :
  nrows (obfuscate_fields_in_df students ["name"; "cohort"; "email_address"]).1 =
    nrows students ∧
  columns (obfuscate_fields_in_df students ["name"; "cohort"; "email_address"]).1 =
    columns students ∧
  rectangular (obfuscate_fields_in_df students ["name"; "cohort"; "email_address"]).1.
Proof.
  apply (masking_keeps_shape students ["name"; "cohort"; "email_address"]).
  unfold rectangular, students; simpl. by repeat constructor.
Defined.

(** ** The chunk writer: what reaches the buffer *)

(** The first listed field that is no column. *)
Lemma first_missing_field (names fields_list : list string) (field : string) :
  field ∈ fields_list → field ∉ names →
  ∃ before missing after,
    fields_list = before ++ missing :: after ∧
    (∀ f, f ∈ before → f ∈ names) ∧ missing ∉ names.
Proof.
  induction fields_list as [|f fields_list IH]; intros Hin Hnot.
  - by apply elem_of_nil in Hin.
  - destruct (decide (f ∈ names)) as [Hf|Hf].
    + apply elem_of_cons in Hin as [->|Hin]; [done|].
      destruct (IH Hin Hnot) as (before & missing & after & -> & Hbefore & Hmissing).
      exists (f :: before), missing, after. split; [done|]. split; [|done].
      intros g Hg. apply elem_of_cons in Hg as [->|Hg]; [done | by apply Hbefore].
    + exists [], f, fields_list. split; [done|]. split; [|done].
      intros g Hg. by apply elem_of_nil in Hg.
Qed.

Section ChunkWriter.
Context `{Library}.

(** X4.  A batch that lacks any listed field adds nothing to the output
    buffer: [process_df_chunk] raises the [KeyError] of a listed field that
    is no column and the buffer is as it was, header included. *)
Theorem failing_chunk_writes_nothing (chunk : DataFrame) (fields_list : list string)
    (output : string) (is_first_chunk : bool) (field : string) :
  field ∈ fields_list →
  field ∉ columns chunk →
  ∃ missing,
    missing ∈ fields_list ∧ (missing ∉ columns chunk) ∧
    process_df_chunk chunk fields_list output is_first_chunk =
      (output, Raised (Exn KeyError (field_not_found missing))).
Proof.
  intros Hin Hnot.
  destruct (first_missing_field _ _ _ Hin Hnot)
    as (before & missing & after & -> & Hbefore & Hmissing).
  exists missing. split; [|split; [done|]].
  - apply elem_of_app. right. apply list_elem_of_here.
  - by apply process_df_chunk_absent.
Qed.

(** X5.  The values of the masked columns never reach the output: two
    batches with the same row count and column names that agree on every
    column outside the field list make [process_df_chunk] end the same way
    and leave the same buffer, whatever the listed columns held. *)
Theorem masked_values_do_not_reach_output (df1 df2 : DataFrame)
    (fields_list : list string) (output : string) (is_first_chunk : bool) :
  nrows df1 = nrows df2 →
  length (cols df1) = length (cols df2) →
  (∀ i c1 c2, cols df1 !! i = Some c1 → cols df2 !! i = Some c2 →
     c1.1 = c2.1 ∧ (c1.1 ∉ fields_list → c1.2 = c2.2)) →
  process_df_chunk df1 fields_list output is_first_chunk =
  process_df_chunk df2 fields_list output is_first_chunk.
Proof.
  intros Hrows Hlen Hagree.
  assert (columns df1 = columns df2) as Hcolumns.
  { unfold columns. apply list_eq. intros i. rewrite !list_lookup_fmap.
    destruct (cols df1 !! i) as [c1|] eqn:H1, (cols df2 !! i) as [c2|] eqn:H2; simpl.
    - by destruct (Hagree i c1 c2 H1 H2) as [-> _].
    - apply lookup_lt_Some in H1. apply lookup_ge_None in H2. lia.
    - apply lookup_ge_None in H1. apply lookup_lt_Some in H2. lia.
    - done. }
  destruct (decide (Forall (λ field, field ∈ columns df1) fields_list)) as [Hall|Hsome].
  - rewrite Forall_forall in Hall.
    rewrite !process_df_chunk_present; [|by rewrite <- Hcolumns|done].
    do 3 f_equal. unfold mask_columns. rewrite Hrows. f_equal.
    apply list_eq. intros i. rewrite !list_lookup_fmap.
    destruct (cols df1 !! i) as [c1|] eqn:H1, (cols df2 !! i) as [c2|] eqn:H2; simpl.
    + destruct (Hagree i c1 c2 H1 H2) as [Hname Hcells].
      destruct c1 as [n1 x1], c2 as [n2 x2]; simpl in *. subst n2.
      case_bool_decide; [done|]. by rewrite Hcells.
    + apply lookup_lt_Some in H1. apply lookup_ge_None in H2. lia.
    + apply lookup_ge_None in H1. apply lookup_lt_Some in H2. lia.
    + done.
  - apply not_Forall_Exists in Hsome; [|apply _].
    apply Exists_exists in Hsome as (field & Hin & Hnot).
    destruct (first_missing_field _ _ _ Hin Hnot)
      as (before & missing & after & -> & Hbefore & Hmissing).
    rewrite !process_df_chunk_absent; try done; by rewrite <- Hcolumns.
Qed.

End ChunkWriter.

Lemma failing_chunk_writes_nothing_witness :
  ∃ missing,
    missing ∈ ["name"; "cohort"] ∧ (missing ∉ columns students) ∧
    @process_df_chunk Reference.reference_library students ["name"; "cohort"]
      "kept" true = ("kept", Raised (Exn KeyError (field_not_found missing))).
Proof.
  apply (@failing_chunk_writes_nothing Reference.reference_library
           students ["name"; "cohort"] "kept" true "cohort").
  - apply (bool_decide_unpack _). by vm_compute.
  - apply (bool_decide_unpack _). by vm_compute.
Defined.

Lemma masked_values_do_not_reach_output_witness :
  @process_df_chunk Reference.reference_library
    students ["name"; "email_address"] "" true =
  @process_df_chunk Reference.reference_library
    students_other_values ["name"; "email_address"] "" true.
Proof.
  apply (@masked_values_do_not_reach_output Reference.reference_library).
  - reflexivity.
  - reflexivity.
  - intros [|[|[|i]]] c1 c2 H1 H2; simpl in H1, H2; simplify_eq; simpl;
      (split; [reflexivity|]); intros Hnot; try reflexivity;
      exfalso; apply Hnot, (bool_decide_unpack _); by vm_compute.
Defined.

(** ** The JSON reader: how items are grouped *)







Section JsonReader.
Context `{Library}.



(** Without a full chunk the loop only gathers the items. *)
Lemma json_loop_gathers (objs : list json) (fields_list : list string)
    (chunk_size : Z) (chunk : list json) (is_first_chunk : bool) (output : string) :
  (chunk_size ≤ 0 ∨ Z.of_nat (length chunk + length objs) < chunk_size)%Z →
  json_loop objs fields_list chunk_size chunk is_first_chunk output =
    ((chunk ++ objs, is_first_chunk, output), Done).
Proof.
  revert chunk.
  induction objs as [|obj objs IH]; intros chunk Hsize; simpl.
  - by rewrite app_nil_r.
  - assert ((Z.of_nat (length (chunk ++ [obj])) =? chunk_size)%Z = false) as ->.
    { apply Z.eqb_neq. rewrite length_app. simpl in *. lia. }
    rewrite IH; [by rewrite <- app_assoc|].
    rewrite length_app. simpl in *. lia.
Qed.

(** X7.  For the JSON reader every chunk size above the number of items of
    the document, and every chunk size that is not positive, gives the same
    result: the items are processed as one batch at the end of the document
    (and a document that ends in a parse error is not processed at all). *)
Theorem json_reader_large_chunk_sizes (file_content : string)
    (fields_list : list string) (output : string) (chunk_size1 chunk_size2 : Z) :
  (chunk_size1 ≤ 0 ∨ Z.of_nat (length (ijson_items file_content).1) < chunk_size1)%Z →
  (chunk_size2 ≤ 0 ∨ Z.of_nat (length (ijson_items file_content).1) < chunk_size2)%Z →
  process_json_chunk file_content fields_list output chunk_size1 =
  process_json_chunk file_content fields_list output chunk_size2.
Proof.
  intros H1 H2. unfold process_json_chunk.
  destruct (ijson_items file_content) as [objs stop]. simpl in H1, H2.
  by rewrite !json_loop_gathers by (simpl; lia).
Qed.

End JsonReader.


Lemma json_reader_large_chunk_sizes_witness :
  @process_json_chunk Reference.reference_library
    (py "[{'a':1,'b':'x'},{'a':2,'b':'y'}]") ["b"] "" 0 =
  @process_json_chunk Reference.reference_library
    (py "[{'a':1,'b':'x'},{'a':2,'b':'y'}]") ["b"] "" 5000.
Proof.
  apply (@json_reader_large_chunk_sizes Reference.reference_library).
  - left. lia.
  - right. by vm_compute.
Defined.

(** ** The orchestrator: formats and stream errors *)

Lemma lower_char_not_upper (c : ascii) :
  is_upper (if is_upper c then ascii_of_nat (nat_of_ascii c + 32) else c) = false.
Proof. destruct c as [[] [] [] [] [] [] [] []]; reflexivity. Qed.

Lemma str_lower_idempotent (s : string) : str_lower (str_lower s) = str_lower s.
Proof.
  induction s as [|c s IH]; [done|].
  simpl. by rewrite lower_char_not_upper, IH.
Qed.

Section Orchestrator.
Context `{Library}.

Lemma convert_str_file_content_supported (file_content : string)
    (fields_list : list string) (file_type : string) (chunk_size : Z) (output : string) :
  convert_str_file_content_to_obfuscated_csv file_content fields_list file_type chunk_size =
    Ok output →
  file_type ∈ supported_formats.
Proof.
  unfold convert_str_file_content_to_obfuscated_csv.
  by case_bool_decide.
Qed.

(** X8.  The source format is matched without regard to case: for every
    input, [obfuscate_file] gives for a source format what it gives for its
    lower-case form. *)
Theorem source_format_case_insensitive (file_content : string)
    (fields_list : list string) (file_type : string) (output_format : option string)
    (chunk_size : Z) :
  obfuscate_file file_content fields_list file_type output_format chunk_size =
  obfuscate_file file_content fields_list (str_lower file_type) output_format chunk_size.
Proof.
  unfold obfuscate_file, obfuscate_file_body. by rewrite str_lower_idempotent.
Qed.

(** X9.  Naming the source format as the target is the same as naming no
    target: for every input, [obfuscate_file] with the lower-case source
    format as [output_format] gives what it gives with [output_format]
    left out. *)
Theorem explicit_source_format_as_target (file_content : string)
    (fields_list : list string) (file_type : string) (chunk_size : Z) :
  obfuscate_file file_content fields_list file_type (Some (str_lower file_type)) chunk_size =
  obfuscate_file file_content fields_list file_type None chunk_size.
Proof.
  unfold obfuscate_file, obfuscate_file_body.
  destruct (convert_str_file_content_to_obfuscated_csv _ _ _ _) as [output|e] eqn:Hstream;
    [|done].
  apply convert_str_file_content_supported in Hstream.
  by rewrite (bool_decide_eq_true_2 (str_lower file_type ∈ supported_formats)).
Qed.

(** X10.  An error of the reader in the middle or at the end of the data
    aborts the whole call: when the batches handed out before it all carry
    the listed fields, they are masked and written, and still
    [obfuscate_file] returns no buffer but raises that error, re-wrapped by
    its class. *)
Theorem stream_error_aborts (file_content : string) (fields_list : list string)
    (file_type : string) (output_format : option string) (chunk_size : Z)
    (chunks : list DataFrame) (e : exn) :
  str_lower file_type ∈ supported_formats →
  batches (str_lower file_type) file_content chunk_size = Ok (chunks, Some e) →
  (∀ chunk, chunk ∈ chunks → ∀ field, field ∈ fields_list → field ∈ columns chunk) →
  obfuscate_file file_content fields_list file_type output_format chunk_size =
    Raise (obfuscate_file_except e).
Proof.
  intros Hsupported Hbatches Hfields.
  unfold obfuscate_file, obfuscate_file_body.
  rewrite convert_str_file_content_batches by done. rewrite Hbatches.
  by rewrite for_each_chunk_present.
Qed.

End Orchestrator.

Lemma stream_error_aborts_witness :
  @batches Reference.reference_library "json" truncated_json 1 =
    Ok ([ {| nrows := 1; cols := [("name", [SStr "a"])] |};
          {| nrows := 1; cols := [("name", [SStr "b"])] |} ],
        Some (Exn (Subclass "JSONError" Exception) "parse error"))
  ∧ @obfuscate_file Reference.reference_library truncated_json ["name"] "json" None 1 =
      Raise (@obfuscate_file_except
               (Exn (Subclass "JSONError" Exception) "parse error")).
Proof.
  split; [by vm_compute|].
  apply (@stream_error_aborts Reference.reference_library
           truncated_json ["name"] "json" None 1
           [ {| nrows := 1; cols := [("name", [SStr "a"])] |};
             {| nrows := 1; cols := [("name", [SStr "b"])] |} ]).
  - apply (bool_decide_unpack _). by vm_compute.
  - by vm_compute.
  - apply fields_present_from_Forall, (bool_decide_unpack _). by vm_compute.
Defined.

(** ** The descriptor *)

Lemma dict_get_Some_key (key : string) (members : list (string * json)) (v : json) :
  dict_get key members = Some v → key ∈ map fst members.
Proof.
  unfold dict_get. intros Hget.
  destruct (last (filter (λ m : string * json, m.1 = key) members))
    as [[k v']|] eqn:Hlast; [|done].
  apply last_Some_elem_of, list_elem_of_filter in Hlast as [Hkey Hin].
  simpl in Hkey. subst k.
  apply list_elem_of_fmap. by exists (key, v').
Qed.

Lemma dict_get_key_is_Some (key : string) (members : list (string * json)) :
  key ∈ map fst members → is_Some (dict_get key members).
Proof.
  intros Hin. apply list_elem_of_fmap in Hin as ([k v] & -> & Hin).
  unfold dict_get. apply fmap_is_Some, last_is_Some.
  intros Hnil. eapply (filter_nil_not_elem_of _ _ (k, v)); done.
Qed.

Lemma split_once_Some (sep : ascii) (s a b : string) :
  split_once sep s = Some (a, b) →
  s = a +:+ String sep b ∧ sep ∉ chars a.
Proof.
  revert a. induction s as [|c s IH]; intros a; simpl; [done|].
  destruct (Ascii.eqb_spec c sep) as [->|Hne].
  - intros [= <- <-]. split; [done|]. apply not_elem_of_nil.
  - destruct (split_once sep s) as [[a' b']|]; [|done].
    intros [= <- <-]. destruct (IH a' eq_refl) as [-> Hnot].
    split; [done|]. simpl. apply not_elem_of_cons. split; [congruence | done].
Qed.

Section Descriptor.
Context `{Library}.

(** X12.  A descriptor that decodes to an object without one of the two
    required keys is refused with the [ValueError] [Invalid JSON input];
    the message about the missing keys does not reach the caller. *)
Theorem descriptor_missing_key (json_input : string) (members : list (string * json)) :
  json_loads json_input = Ok (JObj members) →
  "file_to_obfuscate" ∉ map fst members ∨ "pii_fields" ∉ map fst members →
  json_input_handler json_input = Raise (Exn ValueError "Invalid JSON input").
Proof.
  intros Hloads Hmissing.
  unfold json_input_handler, json_input_handler_body. rewrite Hloads. simpl.
  destruct (decide ("file_to_obfuscate" ∈ map fst members)) as [Hfile|Hfile].
  - rewrite (bool_decide_eq_true_2 _ Hfile).
    destruct Hmissing as [?|Hfields]; [done|].
    by rewrite (bool_decide_eq_false_2 _ Hfields).
  - by rewrite (bool_decide_eq_false_2 _ Hfile).
Qed.

(** X13.  [json_input_handler] returns exactly for the descriptors that
    decode to an object whose [file_to_obfuscate] is a string with a slash
    left once every [s3://] is removed, and that has [pii_fields]: the
    bucket is the text before the first slash, so it holds no slash, the
    key is everything behind it, and the fields are handed on as they
    are. *)
Theorem descriptor_parsed (json_input s3_bucket file_key : string) (fields_list : json) :
  json_input_handler json_input = Ok (s3_bucket, file_key, fields_list) ↔
  ∃ members s3_url,
    json_loads json_input = Ok (JObj members) ∧
    dict_get "file_to_obfuscate" members = Some (JStr s3_url) ∧
    dict_get "pii_fields" members = Some fields_list ∧
    str_replace "s3://" "" s3_url = s3_bucket +:+ String "/" file_key ∧
    "/"%char ∉ chars s3_bucket.
Proof.
  split.
  - unfold json_input_handler, json_input_handler_body, py_in, py_getitem.
    intros Hok.
    destruct (json_loads json_input) as [[| | | | | |members]|e];
      try (repeat case_match; by simplify_eq).
    repeat case_match; simplify_eq.
    match goal with
    | Hsplit : split_once _ _ = Some _ |- _ =>
        apply split_once_Some in Hsplit as [Hjoin Hnot]
    end.
    eauto 10.
  - intros (members & s3_url & Hloads & Hfile & Hfields & Hjoin & Hnot).
    unfold json_input_handler, json_input_handler_body. rewrite Hloads. simpl.
    rewrite (bool_decide_eq_true_2 _ (dict_get_Some_key _ _ _ Hfile)).
    rewrite (bool_decide_eq_true_2 _ (dict_get_Some_key _ _ _ Hfields)).
    rewrite Hfile, Hfields, Hjoin.
    assert (split_once "/" (s3_bucket +:+ String "/" file_key) =
              Some (s3_bucket, file_key)) as ->; [|done].
    clear -Hnot. induction s3_bucket as [|c b IH]; [done|].
    rewrite append_cons. simpl in *. apply not_elem_of_cons in Hnot as [Hc Hb].
    destruct (Ascii.eqb_spec c "/"%char) as [->|_]; [done|].
    by rewrite IH.
Qed.

End Descriptor.

Lemma descriptor_missing_key_witness :
  @json_input_handler Reference.reference_library
    (py "{'file_to_obfuscate': 's3://bucket/new_data/file.csv'}") =
    Raise (Exn ValueError "Invalid JSON input").
Proof.
  apply (@descriptor_missing_key Reference.reference_library _
           [("file_to_obfuscate", JStr "s3://bucket/new_data/file.csv")]).
  - by vm_compute.
  - right. apply (bool_decide_unpack _). by vm_compute.
Defined.

Lemma descriptor_parsed_witness :
  @json_input_handler Reference.reference_library (descriptor "['name']") =
    Ok ("bucket", "new_data/new_data.csv", JArr [JStr "name"]).
Proof.
  apply (proj2 (@descriptor_parsed Reference.reference_library
                  (descriptor "['name']") "bucket" "new_data/new_data.csv"
                  (JArr [JStr "name"]))).
  exists [("file_to_obfuscate", JStr "s3://bucket/new_data/new_data.csv");
          ("pii_fields", JArr [JStr "name"])], "s3://bucket/new_data/new_data.csv".
  split; [by vm_compute|]. split; [by vm_compute|]. split; [by vm_compute|].
  split; [by vm_compute|]. apply (bool_decide_unpack _). by vm_compute.
Defined.

(** ** The object store *)

Section Store.
Context `{Library}.

Lemma read_s3_file_returns (s3 : s3_store) (s3_bucket file_key : string)
    (content_str file_extension : string) :
  read_s3_file s3 s3_bucket file_key = Ok (content_str, file_extension) →
  is_Some (s3 !! (s3_bucket, file_key)) ∧
  file_extension = file_extension_of file_key ∧
  file_extension ∈ supported_formats ∧
  str_lower file_extension = file_extension.
Proof.
  unfold read_s3_file, get_object. intros Hread.
  destruct (s3 !! (s3_bucket, file_key)) as [content|]; [|done].
  split; [done|].
  assert (file_extension = file_extension_of file_key ∧
          file_extension ∈ supported_formats) as [-> Hsupported].
  { revert Hread. case_bool_decide as Htext; [|case_bool_decide as Hparquet].
    - intros Hread.
      assert (file_extension = file_extension_of file_key) as ->
        by (repeat case_match; by simplify_eq).
      split; [done|].
      apply elem_of_cons in Htext as [->|Htext]; [apply list_elem_of_here|].
      apply list_elem_of_singleton in Htext as ->.
      apply elem_of_cons. right. apply list_elem_of_here.
    - intros Hread.
      assert (file_extension = file_extension_of file_key) as ->
        by (repeat case_match; by simplify_eq).
      split; [done|]. rewrite Hparquet.
      do 2 (apply elem_of_cons; right). apply list_elem_of_here.
    - intros Hread. repeat case_match; by simplify_eq. }
  split; [done|]. split; [done|].
  unfold file_extension_of. apply str_lower_idempotent.
Qed.

(** X14.  Whatever [read_s3_file] returns comes with a format the pipeline
    supports: the object exists, and the extension returned is the lower-
    case last dot-segment of the key, is one of csv, json and parquet, and
    is unchanged by [str.lower]; so the source-format check of
    [obfuscate_file] cannot fail on it. *)
Theorem read_s3_file_extension (s3 : s3_store) (s3_bucket file_key : string)
    (content_str file_extension : string) :
  read_s3_file s3 s3_bucket file_key = Ok (content_str, file_extension) →
  is_Some (s3 !! (s3_bucket, file_key)) ∧
  file_extension = file_extension_of file_key ∧
  file_extension ∈ supported_formats ∧
  str_lower file_extension = file_extension.
Proof. apply read_s3_file_returns. Qed.

Lemma write_s3_file_effect (s3 s3' : s3_store) (s3_bucket file_key file_content : string)
    (r : result string) :
  write_s3_file s3 s3_bucket file_key file_content = (s3', r) →
  (∀ other, other ≠ (s3_bucket, file_key) → s3' !! other = s3 !! other) ∧
  match r with
  | Ok _ => is_Some (s3' !! (s3_bucket, file_key))
  | Raise _ => s3' = s3
  end.
Proof.
  unfold write_s3_file, put_object. intros Hwrite.
  repeat case_match; simplify_eq;
    (split; [intros other Hother; by rewrite ?lookup_insert_ne by done|]);
    try done; by rewrite lookup_insert_eq.
Qed.

(** X15.  [write_s3_file] touches one object at most: every other object
    of the store is as before; when the call returns, the object under the
    given bucket and key exists; when it raises, because of the key's
    extension or because the content does not decode, the store is
    unchanged. *)
Theorem write_s3_file_store (s3 s3' : s3_store) (s3_bucket file_key file_content : string)
    (r : result string) :
  write_s3_file s3 s3_bucket file_key file_content = (s3', r) →
  (∀ other, other ≠ (s3_bucket, file_key) → s3' !! other = s3 !! other) ∧
  match r with
  | Ok _ => is_Some (s3' !! (s3_bucket, file_key))
  | Raise _ => s3' = s3
  end.
Proof. apply write_s3_file_effect. Qed.

(** X16.  [handle_file_obfuscation] changes the store only by saving a
    result: when it raises, at whatever stage, or when saving is switched
    off, the store is the one it was given; and when it saves, every object
    other than the one under the output key of the descriptor's bucket is
    as before. *)
Theorem handle_file_obfuscation_store (s3 s3' : s3_store) (json_string : string)
    (if_output_different_format : bool) (output_format : option string)
    (chunk_size : Z) (if_save_to_s3 : bool) (r : result handled) :
  handle_file_obfuscation s3 json_string if_output_different_format output_format
                          chunk_size if_save_to_s3 = Some (s3', r) →
  (if_save_to_s3 = false → s3' = s3) ∧
  (∀ e, r = Raise e → s3' = s3) ∧
  (∀ s3_bucket file_key pii_fields,
      json_input_handler json_string = Ok (s3_bucket, file_key, pii_fields) →
      ∀ other,
        other ≠ (s3_bucket, str_replace "new_data" "processed_data" file_key) →
        s3' !! other = s3 !! other).
Proof.
  unfold handle_file_obfuscation, reraise. intros Hhandle.
  destruct (json_input_handler json_string) as [[[bucket key] pii]|e1];
    [|by simplify_eq].
  destruct (field_names pii) as [fields_list|]; simpl in Hhandle; [|done].
  destruct (read_s3_file s3 bucket key) as [[content extension]|e2];
    [|by simplify_eq].
  destruct (obfuscate_file _ _ _ _ _) as [buffer|e3]; [|by simplify_eq].
  destruct if_save_to_s3; [|by simplify_eq].
  destruct (write_s3_file s3 bucket _ buffer) as [s3'' w] eqn:Hwrite.
  apply write_s3_file_effect in Hwrite as [Hothers Hkey].
  destruct w as [message|e4]; simplify_eq.
  - split; [done|]. split; [done|].
    intros b k p [= <- <- <-]. apply Hothers.
  - done.
Qed.

End Store.

Lemma read_s3_file_extension_witness :
  is_Some (staging_store !! ("bucket", "new_data/new_data.csv")) ∧
  "csv" = file_extension_of "new_data/new_data.csv" ∧
  "csv" ∈ supported_formats ∧
  str_lower "csv" = "csv".
Proof.
  apply (@read_s3_file_extension Reference.reference_library
           staging_store "bucket" "new_data/new_data.csv" students_csv "csv").
  by vm_compute.
Defined.

Lemma write_s3_file_store_witness :
  (∀ other, other ≠ ("bucket", "processed_data/out.csv") →
     (<[("bucket", "processed_data/out.csv") := "a,b"]> staging_store : s3_store) !! other =
     staging_store !! other) ∧
  is_Some ((<[("bucket", "processed_data/out.csv") := "a,b"]> staging_store : s3_store)
             !! ("bucket", "processed_data/out.csv")).
Proof.
  apply (@write_s3_file_store Reference.reference_library
           staging_store _ "bucket" "processed_data/out.csv" "a,b"
           (Ok ("processed_data/out.csv" +:+ " has been successfully " +:+
                "uploaded to s3 bucket " +:+ "bucket"))).
  apply (@write_s3_file_text Reference.reference_library).
  - apply (bool_decide_unpack _). by vm_compute.
  - by vm_compute.
Defined.

Lemma handle_file_obfuscation_store_witness :
  (true = false → staging_store = staging_store) ∧
  (∀ e, Raise (Exn Exception
                 (py_repr ("Error processing data chunk: " +:+
                           py_repr (field_not_found "cohort")))) = @Raise handled e →
        staging_store = staging_store) ∧
  (∀ s3_bucket file_key pii_fields,
      @json_input_handler Reference.reference_library (descriptor "['cohort']") =
        Ok (s3_bucket, file_key, pii_fields) →
      ∀ other,
        other ≠ (s3_bucket, str_replace "new_data" "processed_data" file_key) →
        staging_store !! other = staging_store !! other).
Proof.
  apply (@handle_file_obfuscation_store Reference.reference_library
           staging_store staging_store (descriptor "['cohort']") false None 5000%Z true).
  rewrite (@handle_file_obfuscation_stages Reference.reference_library
             staging_store (descriptor "['cohort']") false None 5000%Z true
             "bucket" "new_data/new_data.csv" (JArr [JStr "cohort"]) ["cohort"]
             students_csv "csv") by (by vm_compute).
  replace (@obfuscate_file Reference.reference_library
             students_csv ["cohort"] "csv" None 5000)
    with (@Raise string (Exn KeyError ("Error processing data chunk: " +:+
                                       py_repr (field_not_found "cohort"))))
    by (by vm_compute).
  reflexivity.
Defined.

(** ** The output key and the source object *)

Lemma str_replace_absent (old new s : string) :
  str_contains old s = false → str_replace old new s = s.
Proof.
  unfold str_replace. induction s as [|c s IH]; [done|].
  intros Habsent.
  change (str_contains old (String c s))
    with (String.prefix old (String c s) || str_contains old s) in Habsent.
  apply orb_false_elim in Habsent as [Hprefix Hrest].
  change (replace_from old new 0 (String c s))
    with (if String.prefix old (String c s)
          then new +:+ replace_from old new (String.length old - 1) s
          else String c (replace_from old new 0 s)).
  by rewrite Hprefix, IH.
Qed.

Lemma replace_from_drop (old new : string) (skip : nat) (s : string) :
  replace_from old new skip s =
    replace_from old new 0 (string_of_list_ascii (drop skip (chars s))).
Proof.
  revert skip. induction s as [|c s IH]; intros skip.
  - by destruct skip.
  - destruct skip as [|skip].
    + unfold chars. by rewrite drop_0, string_of_list_ascii_of_string.
    + change (replace_from old new (S skip) (String c s))
        with (replace_from old new skip s).
      apply IH.
Qed.

(** With at most one occurrence, replacing every occurrence replaces the
    first. *)
Lemma str_replace_single_occurrence (old new s : string) :
  old ≠ "" →
  str_contains old (rest_after_first old s) = false →
  str_replace old new s = replace_first old new s.
Proof.
  intros Hold. unfold str_replace. induction s as [|c s IH]; [done|].
  change (replace_from old new 0 (String c s))
    with (if String.prefix old (String c s)
          then new +:+ replace_from old new (String.length old - 1) s
          else String c (replace_from old new 0 s)).
  change (replace_first old new (String c s))
    with (if String.prefix old (String c s)
          then new +:+ string_of_list_ascii
                         (drop (String.length old) (chars (String c s)))
          else String c (replace_first old new s)).
  change (rest_after_first old (String c s))
    with (if String.prefix old (String c s)
          then string_of_list_ascii (drop (String.length old) (chars (String c s)))
          else rest_after_first old s).
  destruct (String.prefix old (String c s)); [|intros Hrest; by rewrite IH].
  intros Hrest. f_equal.
  destruct old as [|o old]; [done|].
  change (drop (String.length (String o old)) (chars (String c s)))
    with (drop (String.length old) (chars s)) in *.
  replace (String.length (String o old) - 1) with (String.length old) by (simpl; lia).
  rewrite replace_from_drop. by apply str_replace_absent.
Qed.

Section OutputKey.
Context `{Library}.

(** X17.  A source key without [new_data] is its own output key: when the
    descriptor names such a key for a text object, saving the result
    replaces the source object itself by the obfuscated content. *)
Theorem result_saved_over_source
    (s3 : s3_store) (json_string : string) (if_output_different_format : bool)
    (output_format : option string) (chunk_size : Z)
    (s3_bucket file_key : string) (pii_fields : json) (fields_list : list string)
    (content_str file_extension content body : string) :
  json_input_handler json_string = Ok (s3_bucket, file_key, pii_fields) →
  field_names pii_fields = Some fields_list →
  read_s3_file s3 s3_bucket file_key = Ok (content_str, file_extension) →
  obfuscate_file content_str fields_list file_extension
    (if if_output_different_format then output_format else None) chunk_size = Ok content →
  str_contains "new_data" file_key = false →
  file_extension ∈ ["csv"; "json"] →
  decode_utf8 content = Ok body →
  handle_file_obfuscation s3 json_string if_output_different_format output_format
                          chunk_size true =
    Some (<[(s3_bucket, file_key) := body]> s3,
          Ok (Saved ("Obfuscated file saved to s3://" +:+ s3_bucket +:+ "/" +:+ file_key))).
Proof.
  intros Hdescriptor Hfields Hread Hobfuscate Habsent Hext Hdecode.
  rewrite (handle_file_obfuscation_stages _ _ _ _ _ _ _ _ _ _ _ _
             Hdescriptor Hfields Hread).
  rewrite Hobfuscate, (str_replace_absent _ _ _ Habsent).
  apply read_s3_file_returns in Hread as (_ & -> & _).
  by rewrite (write_s3_file_text _ _ _ _ body).
Qed.

(** X18.  For a source key in which [new_data] occurs at most once, the
    output key under which the result is saved is the key with its first
    occurrence replaced by [processed_data], as the specification words
    it. *)
Theorem output_key_single_occurrence
    (s3 s3' : s3_store) (json_string : string) (if_output_different_format : bool)
    (output_format : option string) (chunk_size : Z)
    (s3_bucket file_key : string) (pii_fields : json) (fields_list : list string)
    (content_str file_extension content message : string) :
  json_input_handler json_string = Ok (s3_bucket, file_key, pii_fields) →
  field_names pii_fields = Some fields_list →
  read_s3_file s3 s3_bucket file_key = Ok (content_str, file_extension) →
  obfuscate_file content_str fields_list file_extension
    (if if_output_different_format then output_format else None) chunk_size = Ok content →
  str_contains "new_data" (rest_after_first "new_data" file_key) = false →
  write_s3_file s3 s3_bucket (replace_first "new_data" "processed_data" file_key) content =
    (s3', Ok message) →
  handle_file_obfuscation s3 json_string if_output_different_format output_format
                          chunk_size true =
    Some (s3', Ok (Saved ("Obfuscated file saved to s3://" +:+ s3_bucket +:+ "/" +:+
                          replace_first "new_data" "processed_data" file_key))).
Proof.
  intros Hdescriptor Hfields Hread Hobfuscate Hsingle Hwrite.
  rewrite (handle_file_obfuscation_stages _ _ _ _ _ _ _ _ _ _ _ _
             Hdescriptor Hfields Hread).
  assert ("new_data" ≠ "") as Hold by done.
  rewrite Hobfuscate, (str_replace_single_occurrence _ _ _ Hold Hsingle).
  by rewrite Hwrite.
Qed.

End OutputKey.

Lemma result_saved_over_source_witness :
  @handle_file_obfuscation Reference.reference_library
    plain_store plain_descriptor false None 5000 true =
    Some (<[("bucket", "data/file.csv") := students_csv_name_masked]> plain_store,
          Ok (Saved ("Obfuscated file saved to s3://" +:+ "bucket" +:+ "/" +:+
                     "data/file.csv"))).
Proof.
  apply (@result_saved_over_source Reference.reference_library
           plain_store plain_descriptor false None 5000%Z
           "bucket" "data/file.csv" (JArr [JStr "name"]) ["name"]
           students_csv "csv" students_csv_name_masked students_csv_name_masked).
  - by vm_compute.
  - by vm_compute.
  - by vm_compute.
  - by vm_compute.
  - by vm_compute.
  - apply (bool_decide_unpack _). by vm_compute.
  - by vm_compute.
Defined.

Lemma output_key_single_occurrence_witness :
  @handle_file_obfuscation Reference.reference_library
    single_store single_descriptor false None 5000 true =
    Some (<[("bucket", "processed_data/file.csv") := students_csv_name_masked]>
            single_store,
          Ok (Saved ("Obfuscated file saved to s3://" +:+ "bucket" +:+ "/" +:+
                     replace_first "new_data" "processed_data" "new_data/file.csv"))).
Proof.
  apply (@output_key_single_occurrence Reference.reference_library
           single_store _ single_descriptor false None 5000%Z
           "bucket" "new_data/file.csv" (JArr [JStr "name"]) ["name"]
           students_csv "csv" students_csv_name_masked
           ("processed_data/file.csv" +:+ " has been successfully " +:+
            "uploaded to s3 bucket " +:+ "bucket")).
  - by vm_compute.
  - by vm_compute.
  - by vm_compute.
  - by vm_compute.
  - by vm_compute.
  - replace (replace_first "new_data" "processed_data" "new_data/file.csv")
      with "processed_data/file.csv" by (by vm_compute).
    apply (@write_s3_file_text Reference.reference_library).
    + apply (bool_decide_unpack _). by vm_compute.
    + by vm_compute.
Defined.

(** ** A returned buffer is a fully masked one *)

Lemma obfuscate_fields_in_df_done (df masked : DataFrame) (fields_list : list string) :
  obfuscate_fields_in_df df fields_list = (masked, Done) →
  ∀ field, field ∈ fields_list → field ∈ columns df.
Proof.
  intros Hdone field Hin.
  destruct (decide (field ∈ columns df)) as [|Hnot]; [done|].
  destruct (first_missing_field _ _ _ Hin Hnot)
    as (before & missing & after & -> & Hbefore & Hmissing).
  by rewrite obfuscate_fields_in_df_absent in Hdone.
Qed.

Section FullyMasked.
Context `{Library}.

Lemma for_each_chunk_done (chunks : list DataFrame) (stop : option exn)
    (fields_list : list string) (output output' : string) (is_first_chunk : bool) :
  for_each_chunk chunks stop fields_list output is_first_chunk = (output', Done) →
  stop = None ∧
  ∀ chunk, chunk ∈ chunks → ∀ field, field ∈ fields_list → field ∈ columns chunk.
Proof.
  revert output is_first_chunk.
  induction chunks as [|chunk chunks IH]; intros output is_first_chunk; simpl.
  - destruct stop; [done|]. intros _. split; [done|].
    intros chunk Hchunk. by apply elem_of_nil in Hchunk.
  - unfold process_df_chunk.
    destruct (obfuscate_fields_in_df chunk fields_list) as [masked [|e]] eqn:Hmask;
      [|done].
    intros Hrest. apply IH in Hrest as [-> Hall]. split; [done|].
    intros c Hc. apply elem_of_cons in Hc as [->|Hc]; [|by apply Hall].
    by eapply obfuscate_fields_in_df_done.
Qed.

(** X19.  [obfuscate_file] returns a buffer only when nothing was left
    unmasked: the source format is supported, the reader handed out its
    batches to the end without an error, and every listed field is a
    column of every batch, so it was overwritten in each of them. *)
Theorem returned_buffer_fully_masked (file_content : string)
    (fields_list : list string) (file_type : string) (output_format : option string)
    (chunk_size : Z) (result_buffer : string) :
  obfuscate_file file_content fields_list file_type output_format chunk_size =
    Ok result_buffer →
  str_lower file_type ∈ supported_formats ∧
  ∃ chunks,
    batches (str_lower file_type) file_content chunk_size = Ok (chunks, None) ∧
    (∀ chunk, chunk ∈ chunks → ∀ field, field ∈ fields_list → field ∈ columns chunk) ∧
    convert_str_file_content_to_obfuscated_csv
      file_content fields_list (str_lower file_type) chunk_size =
      Ok (match chunks with
          | [] => ""
          | first :: _ =>
              csv_header first +:+
              join_all (map (λ chunk, csv_body (mask_columns fields_list chunk)) chunks)
          end).
Proof.
  unfold obfuscate_file, obfuscate_file_body. intros Hok.
  destruct (convert_str_file_content_to_obfuscated_csv _ _ _ _) as [output|e] eqn:Hstream;
    [|done].
  clear Hok. pose proof (convert_str_file_content_supported _ _ _ _ _ Hstream) as Hsup.
  split; [done|].
  pose proof Hstream as Hstream'.
  rewrite convert_str_file_content_batches in Hstream' by done.
  destruct (batches _ _ _) as [[chunks stop]|e] eqn:Hbatches; [|done].
  destruct (for_each_chunk chunks stop fields_list "" true) as [out [|e]] eqn:Hloop;
    [|done].
  apply for_each_chunk_done in Hloop as [-> Hall].
  exists chunks. split; [done|]. split; [done|].
  symmetry. rewrite <- Hstream. symmetry.
  by apply streaming_phase_text.
Qed.

End FullyMasked.

Lemma returned_buffer_fully_masked_witness :
  str_lower "CSV" ∈ supported_formats ∧
  ∃ chunks,
    @batches Reference.reference_library (str_lower "CSV") students_csv 5000 =
      Ok (chunks, None) ∧
    (∀ chunk, chunk ∈ chunks → ∀ field, field ∈ ["name"] → field ∈ columns chunk) ∧
    @convert_str_file_content_to_obfuscated_csv Reference.reference_library
      students_csv ["name"] (str_lower "CSV") 5000 =
      Ok (match chunks with
          | [] => ""
          | first :: _ =>
              csv_header first +:+
              join_all (map (λ chunk, @csv_body Reference.reference_library
                                        (mask_columns ["name"] chunk)) chunks)
          end).
Proof.
  apply (@returned_buffer_fully_masked Reference.reference_library
           students_csv ["name"] "CSV" None 5000 students_csv_name_masked).
  by vm_compute.
Defined.
